(** * COVID-19 dashboard: fetch, process, present

    A shallow embedding of [Covid-19 Data Analysis.py] (class
    [CovidDashboard]) and the properties of its pipeline.

    - Python ints are [Z]; Python floats and numpy float64 cells are IEEE
      binary64 values ([spec_float] at precision 53, exponent bound 1024).
    - The summary dict and the historical payload are [gmap]s keyed by
      strings; an insertion-ordered date->count dict is an association list.
    - Methods are computations in a state-and-exception monad over the
      session object, the data directory and the console.  A raised
      exception keeps the assignments made before it, as in Python. *)

From Stdlib Require Import ZArith String Ascii List SpecFloat DecimalString.
From stdpp Require Import gmap strings list sorting.

Local Open Scope Z_scope.
Local Open Scope string_scope.

(** ** Python numbers *)

Module PyFloat.

Definition prec : Z := 53.
Definition emax : Z := 1024.

Definition nan : spec_float := S754_nan.

(** [float(z)] for a Python int, also the int64 -> float64 conversion of
    numpy; exact for |z| < 2^53, which every head count is. *)
Definition of_int (z : Z) : spec_float := binary_normalize prec emax z 0 false.

Definition div (x y : spec_float) : spec_float := SFdiv prec emax x y.
Definition mul (x y : spec_float) : spec_float := SFmul prec emax x y.
Definition add (x y : spec_float) : spec_float := SFadd prec emax x y.

Definition is_finite (x : spec_float) : bool :=
  match x with
  | S754_zero _ | S754_finite _ _ _ => true
  | S754_infinity _ | S754_nan => false
  end.

End PyFloat.

(** ** Python string formatting *)

Module Fmt.

Definition digits_of_N (n : N) : string := NilZero.string_of_uint (N.to_uint n).

(** Insert a comma after every third character counted from the right:
    [chars] is the digit string reversed. *)
Fixpoint group3 (chars : list ascii) (k : nat) : list ascii :=
  match chars with
  | [] => []
  | c :: rest =>
      match k, rest with
      | 2%nat, _ :: _ => c :: "," %char :: group3 rest 0
      | _, _ => c :: group3 rest (S k)
      end
  end.

Definition string_of_chars (l : list ascii) : string :=
  fold_right String EmptyString l.

Fixpoint chars_of_string (s : string) : list ascii :=
  match s with
  | EmptyString => []
  | String c r => c :: chars_of_string r
  end.

(** [format(n, ",")] for a non-negative int. *)
Definition comma_N (n : N) : string :=
  string_of_chars (rev (group3 (rev (chars_of_string (digits_of_N n))) 0)).

(** [f"{z:,}"] for a Python int. *)
Definition comma (z : Z) : string :=
  match z with
  | Zneg p => "-" +:+ comma_N (Npos p)
  | _ => comma_N (Z.to_N z)
  end.

Fixpoint spaces (n : nat) : string :=
  match n with
  | O => ""
  | S k => " " +:+ spaces k
  end.

(** [f"{s:<w}"] and [f"{s:>w}"]: pad, never truncate. *)
Definition ljust (w : nat) (s : string) : string :=
  s +:+ spaces (w - String.length s).
Definition rjust (w : nat) (s : string) : string :=
  spaces (w - String.length s) +:+ s.

Fixpoint zeros (n : nat) : string :=
  match n with
  | O => ""
  | S k => "0" +:+ zeros k
  end.

(** Round the exact rational [num / den] to the nearest integer, ties to
    even, as Python's float formatting does on the exact binary value. *)
Definition round_half_even (num den : Z) : Z :=
  let q := num / den in
  let r := num mod den in
  match Z.compare (2 * r) den with
  | Lt => q
  | Gt => q + 1
  | Eq => if Z.even q then q else q + 1
  end.

(** The digits of [m * 2^e] with [d] decimals, unsigned. *)
Definition fixed_abs (d : nat) (m : positive) (e : Z) : string :=
  let scale := 10 ^ Z.of_nat d in
  let n :=
    match e with
    | Zneg k => round_half_even (Zpos m * scale) (2 ^ Zpos k)
    | _ => Zpos m * 2 ^ e * scale
    end in
  let ip := digits_of_N (Z.to_N (n / scale)) in
  let fp := digits_of_N (Z.to_N (n mod scale)) in
  match d with
  | O => ip
  | _ => ip +:+ "." +:+ zeros (d - String.length fp) +:+ fp
  end.

Definition sign_str (s : bool) : string := if s then "-" else "".

(** [f"{x:.df}"] for a Python float. *)
Definition fixed (d : nat) (x : spec_float) : string :=
  match x with
  | S754_nan => "nan"
  | S754_infinity s => sign_str s +:+ "inf"
  | S754_zero s =>
      sign_str s +:+ match d with O => "0" | _ => "0." +:+ zeros d end
  | S754_finite s m e => sign_str s +:+ fixed_abs d m e
  end.

End Fmt.

(** ** Data model *)

(** One element of the per-country payload.  The methods read [country],
    [cases] and [deaths] of every row unconditionally and probe for
    [recovered] and [active], so the first three are fields of every record
    and the last two are optional. *)
Record CountryRecord := {
  country : string;
  cases : Z;
  deaths : Z;
  recovered : option Z;
  active : option Z
}.

(** A date -> cumulative count dict in insertion order. *)
Abbreviation DateCounts := (list (string * Z)).

Definition dict_keys (d : DateCounts) : list string := map fst d.
Definition dict_values (d : DateCounts) : list Z := map snd d.

(** [pd.DataFrame(list_of_dicts)]: the column labels are the keys met in the
    records, the rows are the records in order.  A record without a key that
    another record has holds NaN in that column. *)
Record DataFrame := {
  columns : list string;
  rows : list CountryRecord
}.

Definition has_key (f : CountryRecord -> option Z) (l : list CountryRecord) : bool :=
  existsb (fun r => bool_decide (is_Some (f r))) l.

Definition frame_columns (l : list CountryRecord) : list string :=
  match l with
  | [] => []
  | _ :: _ =>
      ["country"; "cases"; "deaths"]
        ++ (if has_key recovered l then ["recovered"] else [])
        ++ (if has_key active l then ["active"] else [])
  end.

(** [pd.DataFrame(data)]; [pd.DataFrame(None)] is the empty frame. *)
Definition make_frame (data : option (list CountryRecord)) : DataFrame :=
  let l := default [] data in
  {| columns := frame_columns l; rows := l |}.

Definition has_column (c : string) (df : DataFrame) : bool :=
  bool_decide (c ∈ columns df).

(** [df.head(n)] *)
Definition head (n : nat) (df : DataFrame) : DataFrame :=
  {| columns := columns df; rows := take n (rows df) |}.

(** A numeric cell read as a float: NaN where the record has no value. *)
Definition cell (v : option Z) : spec_float :=
  match v with
  | Some z => PyFloat.of_int z
  | None => PyFloat.nan
  end.

(** [pd.DataFrame.from_dict(d, orient='index', columns=[name])]: the index is
    [list(d.keys())], the single column is [list(d.values())]. *)
Record SeriesFrame := {
  index : list string;
  column_name : string;
  column_values : list Z
}.

Definition from_dict (d : DateCounts) (name : string) : SeriesFrame :=
  {| index := dict_keys d; column_name := name; column_values := dict_values d |}.

(** The table a [SeriesFrame] denotes: one (date, count) row per index entry. *)
Definition table (t : SeriesFrame) : list (string * Z) :=
  zip (index t) (column_values t).

(** ** What pandas is asked to do

    [sort_values('cases', ascending=False)] is called without [kind], so
    pandas sorts with its default algorithm, of which it promises only that
    the result holds the same rows, ordered by the key.
    [pd.to_datetime] parses the index labels or raises. *)
Definition by_cases_desc (a b : CountryRecord) : Prop := (cases b ≤ cases a)%Z.

Class Pandas := {
  sort_rows_desc : list CountryRecord -> list CountryRecord;
  sort_rows_desc_perm : ∀ l, sort_rows_desc l ≡ₚ l;
  sort_rows_desc_sorted : ∀ l, StronglySorted by_cases_desc (sort_rows_desc l);
  to_datetime : list string -> option (list Z)
}.

(** ** Exceptions, the world and the method monad *)

Inductive exn :=
| ConnectionError
| JSONDecodeError
| FileNotFoundError (path : string)
| KeyError (key : string)
| ZeroDivisionError
| ValueError (msg : string)
| TypeError (msg : string)
| AttributeError (msg : string).

(** One chart panel, as the arguments handed to matplotlib. *)
Inductive Panel :=
| BarPanel (labels : list string) (heights : list Z) (texts : list string)
| BarhPanel (labels : list string) (widths : list Z) (texts : list string)
| ScatterPanel (xs ys : list Z) (sizes : list spec_float) (notes : list string)
| TrendPanel (dates : list Z) (case_line death_line : list Z)
| RatePanel (labels : list string) (rates : list spec_float) (texts : list string)
| StackedPanel (labels : list string) (recovered_pct active_pct : list spec_float)
| EmptyPanel.

Inductive Artifact :=
| CsvFrame (df : DataFrame)
| CsvSeries (t : SeriesFrame)
| TextFile (text : string)
| Figure (panels : list Panel) (caption : string).

(** A JSON snapshot in the data directory. *)
Inductive snapshot (A : Type) :=
| Missing
| Corrupt
| Stored (a : A).
Arguments Missing {A}.
Arguments Corrupt {A}.
Arguments Stored {A} a.

Record Disk := {
  global_summary_json : snapshot (gmap string Z);
  countries_data_json : snapshot (list CountryRecord);
  historical_data_json : snapshot (gmap string DateCounts);
  outputs : gmap string Artifact
}.

(** The attributes of a [CovidDashboard] object.  [__init__] sets the first
    four to [None]; the others do not exist until a method assigns them
    ([hasattr] is [false] while the field is [None]). *)
Record Dashboard := {
  global_data : option (gmap string Z);
  countries_data : option (list CountryRecord);
  historical_data : option (gmap string DateCounts);
  top_countries : option DataFrame;
  countries_df : option DataFrame;
  cases_df : option SeriesFrame;
  deaths_df : option SeriesFrame;
  recovered_df : option SeriesFrame
}.

Record World := {
  self : Dashboard;
  disk : Disk;
  stdout : list string
}.

Definition init : Dashboard :=
  {| global_data := None; countries_data := None; historical_data := None;
     top_countries := None; countries_df := None;
     cases_df := None; deaths_df := None; recovered_df := None |}.

Definition M (A : Type) : Type := World -> (exn + A) * World.

Definition ret {A} (a : A) : M A := fun w => (inr a, w).
Definition raise {A} (e : exn) : M A := fun w => (inl e, w).
Definition bind {A B} (m : M A) (k : A -> M B) : M B :=
  fun w =>
    match m w with
    | (inl e, w') => (inl e, w')
    | (inr a, w') => k a w'
    end.

Notation "x <- m ;; k" := (bind m (fun x => k))
  (at level 100, m at next level, right associativity).
Notation "m ;;; k" := (bind m (fun _ => k))
  (at level 100, right associativity).

Definition get_self : M Dashboard := fun w => (inr (self w), w).
Definition set_self (f : Dashboard -> Dashboard) : M unit :=
  fun w => (inr tt, {| self := f (self w); disk := disk w; stdout := stdout w |}).
Definition get_disk : M Disk := fun w => (inr (disk w), w).
Definition set_disk (f : Disk -> Disk) : M unit :=
  fun w => (inr tt, {| self := self w; disk := f (disk w); stdout := stdout w |}).
Definition print (line : string) : M unit :=
  fun w => (inr tt, {| self := self w; disk := disk w; stdout := stdout w ++ [line] |}).

(** [try: body except FileNotFoundError: handler] *)
Definition try_not_found (body handler : M unit) : M unit :=
  fun w =>
    match body w with
    | (inl (FileNotFoundError _), w') => handler w'
    | r => r
    end.

(** [d[key]] on a dict *)
Definition getitem {V} (d : gmap string V) (key : string) : M V :=
  match d !! key with
  | Some v => ret v
  | None => raise (KeyError key)
  end.

(** [a / b] on Python numbers with an int divisor: [ZeroDivisionError] on a
    zero divisor whatever the dividend.  The quotient is that of the two
    operands as floats, which is Python's for operands below 2^53. *)
Definition truediv (a : spec_float) (b : Z) : M spec_float :=
  if bool_decide (b = 0) then raise ZeroDivisionError
  else ret (PyFloat.div a (PyFloat.of_int b)).

Fixpoint mapM {A B} (f : A -> M B) (l : list A) : M (list B) :=
  match l with
  | [] => ret []
  | a :: rest => b <- f a ;; bs <- mapM f rest ;; ret (b :: bs)
  end.

Definition set_global_data v d :=
  {| global_data := v; countries_data := countries_data d;
     historical_data := historical_data d; top_countries := top_countries d;
     countries_df := countries_df d; cases_df := cases_df d;
     deaths_df := deaths_df d; recovered_df := recovered_df d |}.
Definition set_countries_data v d :=
  {| global_data := global_data d; countries_data := v;
     historical_data := historical_data d; top_countries := top_countries d;
     countries_df := countries_df d; cases_df := cases_df d;
     deaths_df := deaths_df d; recovered_df := recovered_df d |}.
Definition set_historical_data v d :=
  {| global_data := global_data d; countries_data := countries_data d;
     historical_data := v; top_countries := top_countries d;
     countries_df := countries_df d; cases_df := cases_df d;
     deaths_df := deaths_df d; recovered_df := recovered_df d |}.
Definition set_top_countries v d :=
  {| global_data := global_data d; countries_data := countries_data d;
     historical_data := historical_data d; top_countries := v;
     countries_df := countries_df d; cases_df := cases_df d;
     deaths_df := deaths_df d; recovered_df := recovered_df d |}.
Definition set_countries_df v d :=
  {| global_data := global_data d; countries_data := countries_data d;
     historical_data := historical_data d; top_countries := top_countries d;
     countries_df := v; cases_df := cases_df d;
     deaths_df := deaths_df d; recovered_df := recovered_df d |}.
Definition set_cases_df v d :=
  {| global_data := global_data d; countries_data := countries_data d;
     historical_data := historical_data d; top_countries := top_countries d;
     countries_df := countries_df d; cases_df := v;
     deaths_df := deaths_df d; recovered_df := recovered_df d |}.
Definition set_deaths_df v d :=
  {| global_data := global_data d; countries_data := countries_data d;
     historical_data := historical_data d; top_countries := top_countries d;
     countries_df := countries_df d; cases_df := cases_df d;
     deaths_df := v; recovered_df := recovered_df d |}.
Definition set_recovered_df v d :=
  {| global_data := global_data d; countries_data := countries_data d;
     historical_data := historical_data d; top_countries := top_countries d;
     countries_df := countries_df d; cases_df := cases_df d;
     deaths_df := deaths_df d; recovered_df := v |}.

Definition write_output (name : string) (a : Artifact) : M unit :=
  set_disk (fun d =>
    {| global_summary_json := global_summary_json d;
       countries_data_json := countries_data_json d;
       historical_data_json := historical_data_json d;
       outputs := <[name := a]> (outputs d) |}).

(** ** The upstream API *)

(** What one GET on an endpoint leads to: [requests.get] raises, or
    [response.json()] raises, or a payload is decoded. *)
Inductive response (A : Type) :=
| Unreachable
| Malformed
| Payload (a : A).
Arguments Unreachable {A}.
Arguments Malformed {A}.
Arguments Payload {A} a.

Record Upstream := {
  global_endpoint : response (gmap string Z);
  countries_endpoint : response (list CountryRecord);
  historical_endpoint : response (gmap string DateCounts)
}.

Definition request {A} (r : response A) : M A :=
  match r with
  | Unreachable => raise ConnectionError
  | Malformed => raise JSONDecodeError
  | Payload a => ret a
  end.

Definition dump_global (g : gmap string Z) : M unit :=
  set_disk (fun d =>
    {| global_summary_json := Stored g;
       countries_data_json := countries_data_json d;
       historical_data_json := historical_data_json d;
       outputs := outputs d |}).
Definition dump_countries (c : list CountryRecord) : M unit :=
  set_disk (fun d =>
    {| global_summary_json := global_summary_json d;
       countries_data_json := Stored c;
       historical_data_json := historical_data_json d;
       outputs := outputs d |}).
Definition dump_historical (h : gmap string DateCounts) : M unit :=
  set_disk (fun d =>
    {| global_summary_json := global_summary_json d;
       countries_data_json := countries_data_json d;
       historical_data_json := Stored h;
       outputs := outputs d |}).

(** ** [CovidDashboard.fetch_data] (lines 30-55)

    Each payload is assigned to its attribute and dumped as soon as it is
    decoded, before the next request is made. *)
Definition fetch_data (net : Upstream) : M unit :=
  g <- request (global_endpoint net) ;;
  set_self (set_global_data (Some g)) ;;;
  dump_global g ;;;
  c <- request (countries_endpoint net) ;;
  set_self (set_countries_data (Some c)) ;;;
  dump_countries c ;;;
  let df_countries := make_frame (Some c) in
  set_self (set_countries_df (Some df_countries)) ;;;
  write_output "countries_data.csv" (CsvFrame df_countries) ;;;
  h <- request (historical_endpoint net) ;;
  set_self (set_historical_data (Some h)) ;;;
  dump_historical h ;;;
  print "Data fetched and saved to covid_data/".

(** ** [CovidDashboard.load_data] (lines 87-101)

    The three reads and assignments sit in one [try]; only
    [FileNotFoundError] is caught, and the handler only prints. *)

(** [open(path, 'r')] followed by [json.load] *)
Definition read_snapshot {A} (path : string) (f : snapshot A) : M A :=
  match f with
  | Missing => raise (FileNotFoundError path)
  | Corrupt => raise JSONDecodeError
  | Stored a => ret a
  end.

Definition load_data : M unit :=
  try_not_found
    (d <- get_disk ;;
     g <- read_snapshot "covid_data/global_summary.json" (global_summary_json d) ;;
     set_self (set_global_data (Some g)) ;;;
     d <- get_disk ;;
     c <- read_snapshot "covid_data/countries_data.json" (countries_data_json d) ;;
     set_self (set_countries_data (Some c)) ;;;
     d <- get_disk ;;
     h <- read_snapshot "covid_data/historical_data.json" (historical_data_json d) ;;
     set_self (set_historical_data (Some h)) ;;;
     print "Data loaded from local files")
    (print "Local data not found. Please fetch data first.").

(** ** [CovidDashboard.process_data] (lines 57-85) *)

(** [df.sort_values('cases', ascending=False)]: [KeyError] when the frame has
    no such column, which is the case of the frame built from no record. *)
Definition sort_values_cases `{Pandas} (df : DataFrame) : M DataFrame :=
  if has_column "cases" df
  then ret {| columns := columns df; rows := sort_rows_desc (rows df) |}
  else raise (KeyError "cases").

Definition is_empty_dict (d : DateCounts) : bool :=
  match d with
  | [] => true
  | _ :: _ => false
  end.

Definition process_data `{Pandas} : M unit :=
  s <- get_self ;;
  (match countries_data s with
   | None => load_data
   | Some _ => ret tt
   end) ;;;
  s <- get_self ;;
  let df := make_frame (countries_data s) in
  sorted <- sort_values_cases df ;;
  let top := head 10 sorted in
  set_self (set_top_countries (Some top)) ;;;
  write_output "top_countries.csv" (CsvFrame top) ;;;
  s <- get_self ;;
  match historical_data s with
  | None => ret tt
  | Some h =>
      cases_h <- getitem h "cases" ;;
      deaths_h <- getitem h "deaths" ;;
      let recovered_h := default [] (h !! "recovered") in
      set_self (set_cases_df (Some (from_dict cases_h "cases"))) ;;;
      set_self (set_deaths_df (Some (from_dict deaths_h "deaths"))) ;;;
      (if is_empty_dict recovered_h then ret tt
       else
         set_self (set_recovered_df (Some (from_dict recovered_h "recovered"))) ;;;
         write_output "historical_recovered.csv"
                      (CsvSeries (from_dict recovered_h "recovered"))) ;;;
      write_output "historical_cases.csv" (CsvSeries (from_dict cases_h "cases")) ;;;
      write_output "historical_deaths.csv" (CsvSeries (from_dict deaths_h "deaths"))
  end.

(** ** [CovidDashboard.visualize_data] (lines 103-190)

    The figure is modelled as the arguments each panel hands to matplotlib;
    the plotting calls themselves are taken to accept them. *)

Definition no_data_message : string :=
  "No data available. Please fetch or load data first.".

(** [df[label]] for one of the three columns every row carries *)
Definition frame_getitem {A} (label : string) (f : CountryRecord -> A)
    (df : DataFrame) : M (list A) :=
  if has_column label df then ret (map f (rows df)) else raise (KeyError label).

(** [cases / deaths * 10] on int64 arrays: float64 arithmetic, element by
    element; numpy divides by zero without raising. *)
Definition bubble_size (c d : Z) : spec_float :=
  PyFloat.mul (PyFloat.div (PyFloat.of_int c) (PyFloat.of_int d)) (PyFloat.of_int 10).

Definition bubble_sizes (cs ds : list Z) : list spec_float :=
  zip_with bubble_size cs ds.

(** [recovered / cases * 100] on two columns *)
Definition recovery_rate_cell (r : CountryRecord) : spec_float :=
  PyFloat.mul (PyFloat.div (cell (recovered r)) (PyFloat.of_int (cases r)))
              (PyFloat.of_int 100).

(** [x / (recovered + active) * 100] on two columns *)
Definition share_cell (x : option Z) (r : CountryRecord) : spec_float :=
  PyFloat.mul (PyFloat.div (cell x) (PyFloat.add (cell (recovered r)) (cell (active r))))
              (PyFloat.of_int 100).

Definition trend_panel `{Pandas} (s : Dashboard) : M Panel :=
  match cases_df s with
  | None => ret EmptyPanel
  | Some cdf =>
      match to_datetime (index cdf) with
      | None => raise (ValueError "Unknown datetime string format")
      | Some dates =>
          match deaths_df s with
          | None => raise (AttributeError "deaths_df")
          | Some ddf =>
              if bool_decide (length dates = length (column_values ddf))
              then ret (TrendPanel dates (column_values cdf) (column_values ddf))
              else raise (ValueError "x and y must have same first dimension")
          end
      end
  end.

Definition recovery_panel (countries : list string) (top : DataFrame) : Panel :=
  if has_column "recovered" top then
    let recovery_rate := map recovery_rate_cell (rows top) in
    RatePanel (rev countries) (rev recovery_rate)
              (map (fun v => Fmt.fixed 1 v +:+ "%") (rev recovery_rate))
  else EmptyPanel.

Definition proportion_panel (countries : list string) (top : DataFrame) : Panel :=
  if has_column "recovered" top && has_column "active" top then
    let recovered_pct := map (fun r => share_cell (recovered r) r) (rows top) in
    let active_pct := map (fun r => share_cell (active r) r) (rows top) in
    StackedPanel (rev countries) (rev recovered_pct) (rev active_pct)
  else EmptyPanel.

Definition visualize_data `{Pandas} (now : string) : M unit :=
  s <- get_self ;;
  match countries_data s, global_data s with
  | Some _, Some g =>
      let global_metrics := ["cases"; "deaths"; "recovered"; "active"] in
      values <- mapM (getitem g) global_metrics ;;
      let ax1 := BarPanel global_metrics values (map Fmt.comma values) in
      match top_countries s with
      | None => raise (TypeError "'NoneType' object is not subscriptable")
      | Some top =>
          countries <- frame_getitem "country" country top ;;
          cases_v <- frame_getitem "cases" cases top ;;
          let ax2 := BarhPanel (rev countries) (rev cases_v)
                               (map Fmt.comma (rev cases_v)) in
          deaths_v <- frame_getitem "deaths" deaths top ;;
          let ax3 := ScatterPanel cases_v deaths_v (bubble_sizes cases_v deaths_v)
                                  countries in
          ax4 <- trend_panel s ;;
          let ax5 := recovery_panel countries top in
          let ax6 := proportion_panel countries top in
          let fig := Figure [ax1; ax2; ax3; ax4; ax5; ax6] ("Generated on " +:+ now) in
          write_output "covid_dashboard.png" fig ;;;
          write_output "covid_dashboard.pdf" fig ;;;
          print "Visualizations saved to covid_data/"
      end
  | _, _ => print no_data_message
  end.

(** ** [CovidDashboard.generate_report] (lines 192-241)

    [now] is the text of [datetime.now().strftime('%Y-%m-%d %H:%M')].  The
    method returns [None] after the guard message and the report text
    otherwise. *)

Definition NL : string := String (ascii_of_nat 10) EmptyString.

Fixpoint repeat_str (s : string) (n : nat) : string :=
  match n with
  | O => ""
  | S k => s +:+ repeat_str s k
  end.

(** [f"{d.get(key, 'N/A'):,}"]: the [,] option is refused for a str. *)
Definition get_comma (g : gmap string Z) (key : string) : M string :=
  match g !! key with
  | Some v => ret (Fmt.comma v)
  | None => raise (ValueError "Cannot specify ',' with 's'.")
  end.

(** [(a / b) * 100] on Python numbers *)
Definition percent (a : spec_float) (b : Z) : M spec_float :=
  q <- truediv a b ;;
  ret (PyFloat.mul q (PyFloat.of_int 100)).

(** [f"{country:<15} {cases:>12,} {deaths:>10,} {recovery_str:>15}\n"] *)
Definition format_row (country_r : string) (cases_r deaths_r : Z)
    (recovery_str : string) : string :=
  Fmt.ljust 15 country_r +:+ " " +:+
  Fmt.rjust 12 (Fmt.comma cases_r) +:+ " " +:+
  Fmt.rjust 10 (Fmt.comma deaths_r) +:+ " " +:+
  Fmt.rjust 15 recovery_str +:+ NL.

Definition row_getitem {A} (top : DataFrame) (label : string) (v : A) : M A :=
  if has_column label top then ret v else raise (KeyError label).

(** One pass of the [for _, row in self.top_countries.iterrows()] body
    (lines 225-234).  A row read out of a frame with a str column holds
    Python numbers, so a zero [cases] raises; ['recovered' in row] asks
    whether the frame has that column. *)
Definition report_row (top : DataFrame) (row : CountryRecord) : M string :=
  country_r <- row_getitem top "country" (country row) ;;
  cases_r <- row_getitem top "cases" (cases row) ;;
  deaths_r <- row_getitem top "deaths" (deaths row) ;;
  recovery_str <-
    (if has_column "recovered" top then
       recovery <- percent (cell (recovered row)) cases_r ;;
       ret (Fmt.fixed 1 recovery +:+ "%")
     else ret "N/A") ;;
  ret (format_row country_r cases_r deaths_r recovery_str).

Definition report_header (now : string) : string :=
  "COVID-19 PANDEMIC SUMMARY REPORT" +:+ NL +:+
  repeat_str "=" 30 +:+ NL +:+ NL +:+
  "Report generated on: " +:+ now +:+ NL +:+ NL +:+
  "GLOBAL STATISTICS" +:+ NL +:+
  repeat_str "-" 20 +:+ NL.

Definition table_header : string :=
  "TOP 10 COUNTRIES BY CASES" +:+ NL +:+
  repeat_str "-" 30 +:+ NL +:+
  Fmt.ljust 15 "Country" +:+ " " +:+ Fmt.rjust 12 "Cases" +:+ " " +:+
  Fmt.rjust 10 "Deaths" +:+ " " +:+ Fmt.rjust 15 "Recovery Rate" +:+ NL.

Definition concat_str (l : list string) : string :=
  fold_right String.append "" l.

Definition generate_report (now : string) : M (option string) :=
  s <- get_self ;;
  match global_data s with
  | None => print no_data_message ;;; ret None
  | Some g =>
      let report := report_header now in
      cases_g <- getitem g "cases" ;;
      let report := report +:+ "Total Cases: " +:+ Fmt.comma cases_g +:+ NL in
      deaths_g <- getitem g "deaths" ;;
      let report := report +:+ "Total Deaths: " +:+ Fmt.comma deaths_g +:+ NL in
      recovered_g <- getitem g "recovered" ;;
      let report := report +:+ "Total Recovered: " +:+ Fmt.comma recovered_g +:+ NL in
      active_g <- getitem g "active" ;;
      let report := report +:+ "Active Cases: " +:+ Fmt.comma active_g +:+ NL in
      critical <- get_comma g "critical" ;;
      let report := report +:+ "Critical Cases: " +:+ critical +:+ NL in
      today_cases <- get_comma g "todayCases" ;;
      let report := report +:+ "Cases Today: " +:+ today_cases +:+ NL in
      today_deaths <- get_comma g "todayDeaths" ;;
      let report := report +:+ "Deaths Today: " +:+ today_deaths +:+ NL +:+ NL in
      death_rate <- percent (PyFloat.of_int deaths_g) cases_g ;;
      recovery_rate <- percent (PyFloat.of_int recovered_g) cases_g ;;
      let report := report +:+ "Global Death Rate: " +:+ Fmt.fixed 2 death_rate
                           +:+ "%" +:+ NL in
      let report := report +:+ "Global Recovery Rate: " +:+ Fmt.fixed 2 recovery_rate
                           +:+ "%" +:+ NL +:+ NL in
      let report := report +:+ table_header in
      match top_countries s with
      | None => raise (AttributeError "'NoneType' object has no attribute 'iterrows'")
      | Some top =>
          lines <- mapM (report_row top) (rows top) ;;
          let report := report +:+ concat_str lines in
          write_output "covid_report.txt" (TextFile report) ;;;
          print "Report saved to covid_data/covid_report.txt" ;;;
          ret (Some report)
      end
  end.

(** ** A sort that meets what pandas promises *)

Global Instance by_cases_desc_dec a b : Decision (by_cases_desc a b).
Proof. unfold by_cases_desc. apply _. Defined.

Global Instance by_cases_desc_total : Total by_cases_desc.
Proof. intros a b. unfold by_cases_desc. lia. Qed.

Global Instance by_cases_desc_trans : Transitive by_cases_desc.
Proof. intros a b c. unfold by_cases_desc. lia. Qed.

(** Index labels read as consecutive days. *)
Definition ordinal_dates (labels : list string) : option (list Z) :=
  Some (map Z.of_nat (seq 0 (length labels))).

(** Merge one row into rows already ordered by cases, largest first: it
    goes before the first row that has no more cases than it has. *)
Fixpoint merge_row (x : CountryRecord) (l : list CountryRecord) : list CountryRecord :=
  match l with
  | [] => [x]
  | y :: ys =>
      if decide (by_cases_desc x y) then x :: y :: ys else y :: merge_row x ys
  end.

(** Sort by merging each row, from the last to the first, into the sorted
    rest.  Tied rows stay in input order. *)
Definition merge_rows (l : list CountryRecord) : list CountryRecord :=
  foldr merge_row [] l.

(** A sort on the rows that meets the contract. *)
Program Definition merge_pandas : Pandas :=
  {| sort_rows_desc := merge_rows;
     to_datetime := ordinal_dates |}.
Next Obligation.
  assert (Hrow : ∀ x l, merge_row x l ≡ₚ x :: l).
  { intros x l. induction l as [|y ys IH]; [done|]. cbn.
    case_decide; [done|]. by rewrite IH, Permutation_swap. }
  intros l. induction l as [|x l IH]; [done|].
  cbn. by rewrite Hrow, IH.
Qed.
Next Obligation.
  assert (Hperm : ∀ x l, merge_row x l ≡ₚ x :: l).
  { intros x l. induction l as [|y ys IH]; [done|]. cbn.
    case_decide; [done|]. by rewrite IH, Permutation_swap. }
  assert (Hrow : ∀ x l, StronglySorted by_cases_desc l →
                        StronglySorted by_cases_desc (merge_row x l)).
  { intros x l Hs. induction l as [|y ys IH].
    - repeat constructor.
    - apply StronglySorted_inv in Hs as [Hys Hall]. cbn. case_decide as Hxy.
      + constructor; [by constructor|]. constructor; [done|].
        eapply Forall_impl; [exact Hall|]. intros z Hz. by transitivity y.
      + constructor; [by apply IH|]. rewrite Hperm. constructor; [|done].
        unfold by_cases_desc in *. lia. }
  intros l. induction l as [|x l IH]; [constructor|].
  cbn. by apply Hrow.
Qed.

(** ** Sessions used in the concrete checks *)

Definition empty_disk : Disk :=
  {| global_summary_json := Missing; countries_data_json := Missing;
     historical_data_json := Missing; outputs := ∅ |}.

(** A session just after [CovidDashboard()] on an empty data directory. *)
Definition fresh : World := {| self := init; disk := empty_disk; stdout := [] |}.

Definition with_countries (l : list CountryRecord) (w : World) : World :=
  {| self := set_countries_data (Some l) (self w); disk := disk w; stdout := stdout w |}.
Definition with_global (g : gmap string Z) (w : World) : World :=
  {| self := set_global_data (Some g) (self w); disk := disk w; stdout := stdout w |}.
Definition with_historical (h : gmap string DateCounts) (w : World) : World :=
  {| self := set_historical_data (Some h) (self w); disk := disk w; stdout := stdout w |}.

Definition mk_country (name : string) (c d : Z) (r a : option Z) : CountryRecord :=
  {| country := name; cases := c; deaths := d; recovered := r; active := a |}.

(** A summary with all seven counters. *)
Definition summary (c d r a cr tc td : Z) : gmap string Z :=
  <["cases" := c]> (<["deaths" := d]> (<["recovered" := r]> (<["active" := a]>
  (<["critical" := cr]> (<["todayCases" := tc]> (<["todayDeaths" := td]> ∅)))))).

(** [sub] occurs in [s]. *)
Definition contains (s sub : string) : Prop :=
  ∃ pre post, s = pre +:+ sub +:+ post.



(** The table the process step derives from a non-empty collection. *)
Definition top_of `{Pandas} (l : list CountryRecord) : DataFrame :=
  head 10 {| columns := frame_columns l; rows := sort_rows_desc l |}.

Definition three_countries : list CountryRecord :=
  [mk_country "Chile" 5 1 (Some 2) (Some 3);
   mk_country "Peru" 9 0 None (Some 1);
   mk_country "Cuba" 9 2 (Some 4) None].


Definition failed {A} (r : response A) : bool :=
  match r with
  | Payload _ => false
  | _ => true
  end.

Definition any_failed (net : Upstream) : bool :=
  failed (global_endpoint net) || failed (countries_endpoint net)
  || failed (historical_endpoint net).

Definition sample_summary : gmap string Z := summary 1000 50 900 50 3 7 1.

(** The summary arrives, the country list does not. *)
Definition countries_down : Upstream :=
  {| global_endpoint := Payload sample_summary;
     countries_endpoint := Unreachable;
     historical_endpoint := Unreachable |}.

(** The fetch property as the specification words it: a failed fetch raises and
    leaves all three in-memory payloads as they were. *)
Definition fetch_as_specified (net : Upstream) (w : World) : Prop :=
  any_failed net = true →
  ∃ e w', fetch_data net w = (inl e, w')
    ∧ global_data (self w') = global_data (self w)
    ∧ countries_data (self w') = countries_data (self w)
    ∧ historical_data (self w') = historical_data (self w).

Definition is_missing {A} (f : snapshot A) : bool :=
  match f with
  | Missing => true
  | _ => false
  end.

Definition is_stored {A} (f : snapshot A) : bool :=
  match f with
  | Stored _ => true
  | _ => false
  end.

(** A file is missing and every file opened before it decodes. *)
Definition first_gap_is_missing (d : Disk) : bool :=
  is_missing (global_summary_json d)
  || is_stored (global_summary_json d) &&
     (is_missing (countries_data_json d)
      || is_stored (countries_data_json d) && is_missing (historical_data_json d)).

Definition not_found_message : string :=
  "Local data not found. Please fetch data first.".

(** Only the summary snapshot is in the data directory. *)
Definition summary_only : World :=
  {| self := init;
     disk := {| global_summary_json := Stored sample_summary;
                countries_data_json := Missing;
                historical_data_json := Missing;
                outputs := ∅ |};
     stdout := [] |}.

Definition any_missing (d : Disk) : bool :=
  is_missing (global_summary_json d) || is_missing (countries_data_json d)
  || is_missing (historical_data_json d).

(** The load property as the specification words it: with a file missing, load
    reports it and all three in-memory payloads are as before. *)
Definition load_as_specified (w : World) : Prop :=
  any_missing (disk w) = true →
  ∃ w', load_data w = (inr tt, w')
    ∧ not_found_message ∈ stdout w'
    ∧ global_data (self w') = global_data (self w)
    ∧ countries_data (self w') = countries_data (self w)
    ∧ historical_data (self w') = historical_data (self w).

Definition two_days : DateCounts := [("1/1/21", 10); ("1/2/21", 12)].
Definition two_days_deaths : DateCounts := [("1/1/21", 1); ("1/2/21", 2)].

Definition cases_and_deaths : gmap string DateCounts :=
  <["cases" := two_days]> (<["deaths" := two_days_deaths]> ∅).

Definition ready : World :=
  with_historical cases_and_deaths (with_countries three_countries (with_global sample_summary fresh)).

(** The reshape property as the specification words it: whatever the payload, its
    "cases" mapping comes out as the cases table. *)
Definition reshape_as_specified `{Pandas} (h : gmap string DateCounts) : Prop :=
  ∀ c, h !! "cases" = Some c →
       ∃ tc, cases_df (self (process_data
                               (with_historical h (with_countries three_countries fresh))).2)
             = Some tc
             ∧ table tc = c.

Definition cases_only : gmap string DateCounts := {[ "cases" := two_days ]}.

(** The three columns every processed table has. *)
Definition has_base_columns (top : DataFrame) : Prop :=
  has_column "country" top = true ∧ has_column "cases" top = true
  ∧ has_column "deaths" top = true.

Definition recovery_text (row : CountryRecord) : string :=
  Fmt.fixed 1 (PyFloat.mul (PyFloat.div (cell (recovered row)) (PyFloat.of_int (cases row)))
                           (PyFloat.of_int 100)) +:+ "%".

(** The text before the two rate lines, from a summary's seven counters. *)
Definition report_totals (now : string) (c d r a cr tc td : Z) : string :=
  ((((((report_header now
  +:+ "Total Cases: " +:+ Fmt.comma c +:+ NL)
  +:+ "Total Deaths: " +:+ Fmt.comma d +:+ NL)
  +:+ "Total Recovered: " +:+ Fmt.comma r +:+ NL)
  +:+ "Active Cases: " +:+ Fmt.comma a +:+ NL)
  +:+ "Critical Cases: " +:+ Fmt.comma cr +:+ NL)
  +:+ "Cases Today: " +:+ Fmt.comma tc +:+ NL)
  +:+ "Deaths Today: " +:+ Fmt.comma td +:+ NL +:+ NL.

Definition rate_text (part whole : Z) : string :=
  Fmt.fixed 2 (PyFloat.mul (PyFloat.div (PyFloat.of_int part) (PyFloat.of_int whole))
                           (PyFloat.of_int 100)).

Definition processed : World := (process_data (H:=merge_pandas) ready).2.

Definition noon : string := "2021-01-03 12:00".








(** Only the four totals. *)
Definition totals_only : gmap string Z :=
  <["cases" := 1000]> (<["deaths" := 50]> (<["recovered" := 900]> (<["active" := 50]> ∅))).

(** All three endpoints answer. *)
Definition all_up : Upstream :=
  {| global_endpoint := Payload sample_summary;
     countries_endpoint := Payload three_countries;
     historical_endpoint := Payload cases_and_deaths |}.

Definition fetched : World := (fetch_data all_up fresh).2.

Definition drawn_trend : Panel := TrendPanel [0; 1] [10; 12] [1; 2].

(** The scatter property as the specification words it: no bubble size comes out of
    a division by zero, so every size is a finite number. *)
Definition sizes_as_specified (top : DataFrame) : Prop :=
  Forall (fun size => PyFloat.is_finite size = true)
         (bubble_sizes (map cases (rows top)) (map deaths (rows top))).

Definition na_row (row : CountryRecord) : string :=
  format_row (country row) (cases row) (deaths row) "N/A".

(** No record carries a recovered count. *)
Definition unrecovered_countries : list CountryRecord :=
  [mk_country "Chile" 5 1 None (Some 3);
   mk_country "Peru" 9 0 None (Some 1);
   mk_country "Cuba" 9 2 None None].

Definition unrecovered_session : World :=
  with_historical cases_and_deaths
    (with_countries unrecovered_countries (with_global sample_summary fresh)).

(** The N/A property as the specification words it, record by record: a row
    whose record has no recovered count is printed with N/A. *)
Definition na_as_specified `{Pandas} (l : list CountryRecord) : Prop :=
  ∀ row, row ∈ rows (top_of l) → recovered row = None →
         report_row (top_of l) row fresh = (inr (na_row row), fresh).

(** ** [CovidDashboard.__init__] (lines 13-28)

    The four payload attributes start as [None]; the attributes the other
    methods create do not exist yet.  The data directory is there from here
    on, so no later [open] for writing fails on it. *)
Definition new_dashboard : M unit := set_self (fun _ => init).

(** ** [main] (lines 243-276) *)

(** How the program ends: the user chose 6, a method raised and nothing
    caught it, or [input()] found the input closed. *)
Inductive Outcome :=
| Exited
| Crashed (e : exn)
| InputClosed.

Definition banner : list string :=
  ["COVID-19 Data Analysis Dashboard"; repeat_str "=" 30].

Definition menu : list string :=
  [NL +:+ "Options:";
   "1. Fetch latest COVID-19 data";
   "2. Load data from local files";
   "3. Process data";
   "4. Visualize data";
   "5. Generate report";
   "6. Exit"].

Definition prompt : string := NL +:+ "Enter your choice (1-6): ".

Definition goodbye : string := "Exiting program. Goodbye!".
Definition invalid_choice : string := "Invalid choice. Please try again.".
Definition preview_title : string := NL +:+ "REPORT PREVIEW:".

Fixpoint print_lines (lines : list string) : M unit :=
  match lines with
  | [] => ret tt
  | line :: rest => print line ;;; print_lines rest
  end.

(** [report[:500] + "...\n"] *)
Definition preview (report : string) : string :=
  substring 0 500 report +:+ "..." +:+ NL.

(** The [if]/[elif] chain of one pass of the loop; the result says whether
    the loop goes on.  Slicing the [None] that [generate_report] returns
    after its guard message raises [TypeError]. *)
Definition dispatch `{Pandas} (net : Upstream) (now : string) (choice : string)
    : M bool :=
  if bool_decide (choice = "1") then fetch_data net ;;; ret true
  else if bool_decide (choice = "2") then load_data ;;; ret true
  else if bool_decide (choice = "3") then process_data ;;; ret true
  else if bool_decide (choice = "4") then visualize_data now ;;; ret true
  else if bool_decide (choice = "5") then
    report <- generate_report now ;;
    print preview_title ;;;
    match report with
    | Some text => print (preview text)
    | None => raise (TypeError "'NoneType' object is not subscriptable")
    end ;;;
    ret true
  else if bool_decide (choice = "6") then print goodbye ;;; ret false
  else print invalid_choice ;;; ret true.

(** The [while True] loop, run on the lines the user types.  [net i] is the
    state of the upstream API and [clock i] the time during pass [i]. *)
Fixpoint menu_loop `{Pandas} (net : nat -> Upstream) (clock : nat -> string)
    (i : nat) (inputs : list string) (w : World) : Outcome * World :=
  let w1 := (print_lines menu ;;; print prompt) w in
  match inputs with
  | [] => (InputClosed, w1.2)
  | choice :: rest =>
      match dispatch (net i) (clock i) choice w1.2 with
      | (inl e, w2) => (Crashed e, w2)
      | (inr true, w2) => menu_loop net clock (S i) rest w2
      | (inr false, w2) => (Exited, w2)
      end
  end.

Definition main `{Pandas} (net : nat -> Upstream) (clock : nat -> string)
    (inputs : list string) (w : World) : Outcome * World :=
  menu_loop net clock 0 inputs ((print_lines banner ;;; new_dashboard) w).2.

(** The world as one pass of the loop finds it after the menu and the prompt. *)
Definition prompted (w : World) : World :=
  ((print_lines menu ;;; print prompt) w).2.

(** ** Further notions used in the properties *)

(** The three payloads of a session. *)
Definition payloads (s : Dashboard)
    : option (gmap string Z) * option (list CountryRecord)
      * option (gmap string DateCounts) :=
  (global_data s, countries_data s, historical_data s).

(** The tables the process step derives. *)
Definition derived (s : Dashboard)
    : option DataFrame * option SeriesFrame * option SeriesFrame * option SeriesFrame :=
  (top_countries s, cases_df s, deaths_df s, recovered_df s).

Definition all_stored (d : Disk) : bool :=
  is_stored (global_summary_json d) && is_stored (countries_data_json d)
  && is_stored (historical_data_json d).



(** The width of a table line without its newline: 15 + 12 + 10 + 15 and
    three separating spaces. *)
Definition row_width : nat := 55.


(** * Properties *)

(** ** Formatting, checked on values *)

Example comma_small : Fmt.comma 999 = "999". Proof. reflexivity. Qed.
Example comma_thousand : Fmt.comma 1000 = "1,000". Proof. reflexivity. Qed.
Example comma_big : Fmt.comma 704753890 = "704,753,890". Proof. reflexivity. Qed.
Example comma_neg : Fmt.comma (-1234567) = "-1,234,567". Proof. reflexivity. Qed.
Example comma_zero : Fmt.comma 0 = "0". Proof. reflexivity. Qed.
Example rjust_pads : Fmt.rjust 6 "1,000" = " 1,000". Proof. reflexivity. Qed.
Example ljust_long : Fmt.ljust 3 "Brazil" = "Brazil". Proof. reflexivity. Qed.

Example fixed_5 :
  Fmt.fixed 2 (PyFloat.mul (PyFloat.div (PyFloat.of_int 5) (PyFloat.of_int 100))
                           (PyFloat.of_int 100)) = "5.00".
Proof. vm_compute. reflexivity. Qed.

Example fixed_third :
  Fmt.fixed 2 (PyFloat.mul (PyFloat.div (PyFloat.of_int 1) (PyFloat.of_int 3))
                           (PyFloat.of_int 100)) = "33.33".
Proof. vm_compute. reflexivity. Qed.

Example fixed_two_thirds :
  Fmt.fixed 1 (PyFloat.mul (PyFloat.div (PyFloat.of_int 2) (PyFloat.of_int 3))
                           (PyFloat.of_int 100)) = "66.7".
Proof. vm_compute. reflexivity. Qed.

Example fixed_inf :
  Fmt.fixed 1 (PyFloat.div (PyFloat.of_int 7) (PyFloat.of_int 0)) = "inf".
Proof. vm_compute. reflexivity. Qed.

(** ** The monad *)

Lemma bind_inr {A B} (m : M A) (k : A -> M B) w a w' :
  m w = (inr a, w') → bind m k w = k a w'.
Proof. intros Hm. unfold bind. by rewrite Hm. Qed.

Lemma bind_inl {A B} (m : M A) (k : A -> M B) w e w' :
  m w = (inl e, w') → bind m k w = (inl e, w').
Proof. intros Hm. unfold bind. by rewrite Hm. Qed.

(** Run the primitive steps of a method on the world at hand. *)
Ltac mrun :=
  cbv beta iota zeta delta
    [bind ret raise get_self set_self get_disk set_disk print write_output
     request read_snapshot dump_global dump_countries dump_historical
     try_not_found];
  cbn [self disk stdout fst snd].

Lemma string_app_assoc (a b c : string) : (a +:+ b) +:+ c = a +:+ b +:+ c.
Proof.
  induction a as [|x a IH]; [done|].
  change (String x ((a +:+ b) +:+ c) = String x (a +:+ b +:+ c)).
  by f_equal.
Qed.

Lemma contains_app_l s t sub : contains s sub → contains (s +:+ t) sub.
Proof.
  intros (pre & post & ->). exists pre, (post +:+ t).
  by rewrite !string_app_assoc.
Qed.

Lemma contains_app_r s t sub : contains t sub → contains (s +:+ t) sub.
Proof.
  intros (pre & post & ->). exists (s +:+ pre), post.
  by rewrite !string_app_assoc.
Qed.

Lemma contains_here pre sub post : contains (pre +:+ sub +:+ post) sub.
Proof. by exists pre, post. Qed.

(** ** Top countries *)

Section TopCountries.
Context `{Pandas}.

Lemma has_column_cases_nonempty (l : list CountryRecord) :
  l ≠ [] → has_column "cases" (make_frame (Some l)) = true.
Proof.
  intros Hl. destruct l as [|r l]; [done|].
  unfold has_column, make_frame. cbn.
  apply bool_decide_eq_true. set_solver.
Qed.

(** Line 66 is reached and assigns the first ten sorted rows; nothing
    after it touches [top_countries], whether or not the historical part
    then raises. *)
Lemma process_data_top (w : World) (l : list CountryRecord) :
  countries_data (self w) = Some l → l ≠ [] →
  top_countries (self (process_data w).2)
  = Some (head 10 {| columns := frame_columns l; rows := sort_rows_desc l |}).
Proof.
  intros Hc Hl. unfold process_data, bind, get_self. cbn. rewrite Hc. cbn.
  rewrite Hc. unfold sort_values_cases.
  rewrite (has_column_cases_nonempty l Hl). cbn.
  destruct (historical_data (self w)) as [h|]; cbn; [|done].
  unfold getitem.
  destruct (h !! "cases") as [ch|]; cbn; [|done].
  destruct (h !! "deaths") as [dh|]; cbn; [|done].
  destruct (is_empty_dict (default [] (h !! "recovered"))); cbn; done.
Qed.


End TopCountries.









(** ** Fetch *)

(** C3 (as the code has it): when one of the three requests or decodes
    fails, [fetch_data] raises that error to its caller.  The fields of the
    requests that completed before it hold the new payloads; the fields of
    the failed request and of those after it are as before.  Only when the
    first request fails is the whole session as before.  The derived tables
    are never touched. *)
Theorem fetch_failure_keeps_unreached_fields (net : Upstream) (w : World) :
  any_failed net = true →
  ∃ e w', fetch_data net w = (inl e, w')
    ∧ (e = ConnectionError ∨ e = JSONDecodeError)
    ∧ historical_data (self w') = historical_data (self w)
    ∧ top_countries (self w') = top_countries (self w)
    ∧ (failed (global_endpoint net) = true → w' = w)
    ∧ (∀ g, global_endpoint net = Payload g → global_data (self w') = Some g)
    ∧ (∀ g, global_endpoint net = Payload g →
            failed (countries_endpoint net) = true →
            countries_data (self w') = countries_data (self w))
    ∧ (∀ g c, global_endpoint net = Payload g →
              countries_endpoint net = Payload c →
              countries_data (self w') = Some c).
Proof.
  destruct net as [rg rc rh]. unfold any_failed. cbn [global_endpoint
    countries_endpoint historical_endpoint]. intros Hfail.
  destruct rg as [| |g].
  1,2: eexists _, w; split; [reflexivity|]; repeat split; auto; intros;
       simplify_eq/=; done.
  destruct rc as [| |c].
  1,2: unfold fetch_data; mrun;
       eexists _, _; split; [reflexivity|]; repeat split; auto; intros;
       simplify_eq/=; done.
  destruct rh as [| |h]; [| |discriminate].
  1,2: unfold fetch_data; mrun;
       eexists _, _; split; [reflexivity|]; repeat split; auto; intros;
       simplify_eq/=; done.
Qed.

Lemma fetch_failure_keeps_unreached_fields_witness :
  ∃ e w', fetch_data countries_down fresh = (inl e, w')
    ∧ (e = ConnectionError ∨ e = JSONDecodeError)
    ∧ historical_data (self w') = historical_data (self fresh)
    ∧ top_countries (self w') = top_countries (self fresh)
    ∧ (failed (global_endpoint countries_down) = true → w' = fresh)
    ∧ (∀ g, global_endpoint countries_down = Payload g → global_data (self w') = Some g)
    ∧ (∀ g, global_endpoint countries_down = Payload g →
            failed (countries_endpoint countries_down) = true →
            countries_data (self w') = countries_data (self fresh))
    ∧ (∀ g c, global_endpoint countries_down = Payload g →
              countries_endpoint countries_down = Payload c →
              countries_data (self w') = Some c).
Proof.
  apply (fetch_failure_keeps_unreached_fields countries_down fresh). reflexivity.
Defined.

(** C3 fails when the second request fails: the summary of the first one
    has already been assigned (and written) at line 34. *)
Lemma fetch_as_specified_fails : ¬ fetch_as_specified countries_down fresh.
Proof.
  intros Hspec. destruct (Hspec eq_refl) as (e & w' & Hrun & Hg & _).
  injection Hrun as _ <-. cbn in Hg. discriminate.
Qed.

(** ** Load *)

(** C4 (as the code has it): when a snapshot file is missing (and the files
    opened before it decode), [load_data] prints the not-found message and
    returns normally.  The fields of the files read before the missing one
    hold the loaded payloads; the field of the missing file and the later
    ones are as before.  Only when [global_summary.json] is the missing file
    is the whole session as before. *)
Theorem load_missing_adopts_earlier_files (w : World) :
  first_gap_is_missing (disk w) = true →
  ∃ w', load_data w = (inr tt, w')
    ∧ stdout w' = (stdout w ++ [not_found_message])%list
    ∧ disk w' = disk w
    ∧ historical_data (self w') = historical_data (self w)
    ∧ top_countries (self w') = top_countries (self w)
    ∧ (is_missing (global_summary_json (disk w)) = true → self w' = self w)
    ∧ (∀ g, global_summary_json (disk w) = Stored g → global_data (self w') = Some g)
    ∧ (∀ g, global_summary_json (disk w) = Stored g →
            is_missing (countries_data_json (disk w)) = true →
            countries_data (self w') = countries_data (self w))
    ∧ (∀ g c, global_summary_json (disk w) = Stored g →
              countries_data_json (disk w) = Stored c →
              countries_data (self w') = Some c).
Proof.
  destruct w as [s [fg fc fh out] so]. unfold first_gap_is_missing.
  cbn [disk global_summary_json countries_data_json historical_data_json].
  intros Hgap.
  destruct fg as [| |g]; [|discriminate|].
  { eexists; split; [reflexivity|]; repeat split; auto; intros;
    simplify_eq/=; done. }
  destruct fc as [| |c]; [|discriminate|].
  { eexists; split; [reflexivity|]; repeat split; auto; intros;
    simplify_eq/=; done. }
  destruct fh as [| |h]; [|discriminate|discriminate].
  eexists; split; [reflexivity|]; repeat split; auto; intros;
    simplify_eq/=; done.
Qed.

Lemma load_missing_adopts_earlier_files_witness :
  ∃ w', load_data summary_only = (inr tt, w')
    ∧ stdout w' = (stdout summary_only ++ [not_found_message])%list
    ∧ disk w' = disk summary_only
    ∧ historical_data (self w') = historical_data (self summary_only)
    ∧ top_countries (self w') = top_countries (self summary_only)
    ∧ (is_missing (global_summary_json (disk summary_only)) = true →
       self w' = self summary_only)
    ∧ (∀ g, global_summary_json (disk summary_only) = Stored g →
            global_data (self w') = Some g)
    ∧ (∀ g, global_summary_json (disk summary_only) = Stored g →
            is_missing (countries_data_json (disk summary_only)) = true →
            countries_data (self w') = countries_data (self summary_only))
    ∧ (∀ g c, global_summary_json (disk summary_only) = Stored g →
              countries_data_json (disk summary_only) = Stored c →
              countries_data (self w') = Some c).
Proof.
  apply (load_missing_adopts_earlier_files summary_only). reflexivity.
Defined.

(** C4 fails when a later file is the missing one: the summary file has
    been read and assigned at line 91 before the open at line 93 fails. *)
Lemma load_as_specified_fails : ¬ load_as_specified summary_only.
Proof.
  intros Hspec. destruct (Hspec eq_refl) as (w' & Hrun & _ & Hg & _).
  injection Hrun as <-. cbn in Hg. discriminate.
Qed.

(** ** Process: the historical tables *)

Lemma table_from_dict (d : DateCounts) (name : string) : table (from_dict d name) = d.
Proof. unfold table, from_dict, dict_keys, dict_values. cbn. apply zip_fst_snd. Qed.

Section Process.
Context `{Pandas}.

(** The whole step, for a payload with both mandatory series. *)
Lemma process_data_run (w : World) (l : list CountryRecord)
    (h : gmap string DateCounts) (c d : DateCounts) :
  countries_data (self w) = Some l → l ≠ [] →
  historical_data (self w) = Some h →
  h !! "cases" = Some c → h !! "deaths" = Some d →
  ∃ w', process_data w = (inr tt, w')
    ∧ stdout w' = stdout w
    ∧ global_data (self w') = global_data (self w)
    ∧ countries_data (self w') = Some l
    ∧ top_countries (self w') = Some (top_of l)
    ∧ cases_df (self w') = Some (from_dict c "cases")
    ∧ deaths_df (self w') = Some (from_dict d "deaths")
    ∧ recovered_df (self w')
      = (if is_empty_dict (default [] (h !! "recovered")) then recovered_df (self w)
         else Some (from_dict (default [] (h !! "recovered")) "recovered"))
    ∧ outputs (disk w') !! "historical_recovered.csv"
      = (if is_empty_dict (default [] (h !! "recovered"))
         then outputs (disk w) !! "historical_recovered.csv"
         else Some (CsvSeries (from_dict (default [] (h !! "recovered")) "recovered"))).
Proof.
  destruct w as [s dk so]. cbn [self disk stdout].
  intros Hc Hl Hh Hhc Hhd.
  unfold process_data. mrun. rewrite Hc. mrun. rewrite Hc.
  unfold sort_values_cases. rewrite (has_column_cases_nonempty l Hl). mrun.
  cbn [historical_data set_top_countries]. rewrite Hh.
  unfold getitem. rewrite Hhc, Hhd. mrun.
  destruct (is_empty_dict (default [] (h !! "recovered"))); mrun;
    (eexists; split; [reflexivity|]); cbn; rewrite ?Hc; repeat split; try done;
    repeat (rewrite lookup_insert_ne by done); by rewrite ?lookup_insert_eq.
Qed.

End Process.

(** C6 (as the code has it): for a payload that carries both the "cases" and
    the "deaths" mapping, processed after a non-empty country collection,
    each per-metric table holds exactly the (date, count) pairs of its
    mapping, in the mapping's order; the "recovered" table likewise when
    that mapping is present and not empty. *)
Theorem historical_reshape_keeps_pairs `{Pandas} (w : World) (l : list CountryRecord)
    (h : gmap string DateCounts) (c d : DateCounts) :
  countries_data (self w) = Some l → l ≠ [] →
  historical_data (self w) = Some h →
  h !! "cases" = Some c → h !! "deaths" = Some d →
  ∃ w' tc td, process_data w = (inr tt, w')
    ∧ cases_df (self w') = Some tc ∧ table tc = c
    ∧ deaths_df (self w') = Some td ∧ table td = d
    ∧ (∀ r, h !! "recovered" = Some r → r ≠ [] →
            ∃ tr, recovered_df (self w') = Some tr ∧ table tr = r).
Proof.
  intros Hc Hl Hh Hhc Hhd.
  destruct (process_data_run w l h c d Hc Hl Hh Hhc Hhd)
    as (w' & Hrun & _ & _ & _ & _ & Hcdf & Hddf & Hrdf & _).
  exists w', (from_dict c "cases"), (from_dict d "deaths").
  repeat split; try done; try apply table_from_dict.
  intros r Hr Hne. rewrite Hr in Hrdf. cbn in Hrdf.
  destruct r as [|p r]; [done|]. cbn in Hrdf.
  eexists; split; [exact Hrdf | apply table_from_dict].
Qed.

Lemma historical_reshape_keeps_pairs_witness :
  ∃ w' tc td, process_data (H:=merge_pandas) ready = (inr tt, w')
    ∧ cases_df (self w') = Some tc ∧ table tc = [("1/1/21", 10); ("1/2/21", 12)]
    ∧ deaths_df (self w') = Some td ∧ table td = two_days_deaths
    ∧ (∀ r, cases_and_deaths !! "recovered" = Some r → r ≠ [] →
            ∃ tr, recovered_df (self w') = Some tr ∧ table tr = r).
Proof.
  apply (historical_reshape_keeps_pairs (H:=merge_pandas) ready three_countries
           cases_and_deaths two_days two_days_deaths);
    solve [reflexivity | discriminate].
Defined.

(** C6 fails on the payload the specification gives: it has no "deaths"
    mapping, so line 73 raises [KeyError] before any table is built. *)
Lemma reshape_as_specified_fails :
  (process_data (H:=merge_pandas)
     (with_historical cases_only (with_countries three_countries fresh))).1
  = inl (KeyError "deaths")
  ∧ ¬ reshape_as_specified (H:=merge_pandas) cases_only.
Proof.
  split; [vm_compute; reflexivity|].
  intros Hspec. destruct (Hspec two_days eq_refl) as (tc & Htc & _).
  vm_compute in Htc. discriminate.
Qed.

(** ** Report *)

Lemma top_of_base_columns `{Pandas} (l : list CountryRecord) :
  l ≠ [] → has_base_columns (top_of l).
Proof.
  intros Hl. destruct l as [|r l]; [done|].
  unfold has_base_columns, has_column, top_of, head. cbn [columns frame_columns].
  repeat split; apply bool_decide_eq_true; set_solver.
Qed.

Lemma top_of_recovered_column `{Pandas} (l : list CountryRecord) :
  has_column "recovered" (top_of l) = has_key recovered l.
Proof.
  destruct l as [|r l]; [done|].
  unfold has_column, top_of, head. cbn [columns frame_columns].
  destruct (has_key recovered (r :: l)), (has_key active (r :: l)); done.
Qed.

(** What one pass of the loop body does, case by case. *)
Lemma report_row_run (top : DataFrame) (row : CountryRecord) (w : World) :
  has_base_columns top →
  report_row top row w
  = if has_column "recovered" top then
      if bool_decide (cases row = 0) then (inl ZeroDivisionError, w)
      else (inr (format_row (country row) (cases row) (deaths row) (recovery_text row)), w)
    else (inr (format_row (country row) (cases row) (deaths row) "N/A"), w).
Proof.
  intros (Hc1 & Hc2 & Hc3). unfold report_row, row_getitem, percent, truediv.
  rewrite Hc1, Hc2, Hc3. mrun.
  destruct (has_column "recovered" top); [|done].
  destruct (bool_decide (cases row = 0)); done.
Qed.

Lemma report_rows_run (top : DataFrame) (l : list CountryRecord) (w : World) :
  has_base_columns top →
  (has_column "recovered" top = true → Forall (fun row => cases row ≠ 0) l) →
  ∃ lines, mapM (report_row top) l w = (inr lines, w)
           ∧ length lines = length l.
Proof.
  intros Hb Hnz. induction l as [|row l IH].
  - by exists [].
  - destruct IH as (lines & Hlines & Hlen).
    { intros Hr. specialize (Hnz Hr). by inversion Hnz. }
    cbn [mapM]. unfold bind at 1. rewrite (report_row_run top row w Hb).
    destruct (has_column "recovered" top) eqn:Hr.
    + specialize (Hnz eq_refl). inversion Hnz as [|? ? Hrow _]; subst.
      rewrite bool_decide_eq_false_2 by done.
      unfold bind at 1. rewrite Hlines. eexists; split; [reflexivity|].
      cbn. by rewrite Hlen.
    + unfold bind at 1. rewrite Hlines. eexists; split; [reflexivity|].
      cbn. by rewrite Hlen.
Qed.


Lemma death_rate_50_of_1000 :
  Fmt.fixed 2 (PyFloat.mul (PyFloat.div (PyFloat.of_int 50) (PyFloat.of_int 1000))
                           (PyFloat.of_int 100)) = "5.00".
Proof. vm_compute. reflexivity. Qed.

Lemma recovery_rate_900_of_1000 :
  Fmt.fixed 2 (PyFloat.mul (PyFloat.div (PyFloat.of_int 900) (PyFloat.of_int 1000))
                           (PyFloat.of_int 100)) = "90.00".
Proof. vm_compute. reflexivity. Qed.

(** A complete summary and a processed table: the report is produced, with
    this text. *)
Lemma generate_report_run (w : World) (g : gmap string Z) (top : DataFrame)
    (now : string) (c d r a cr tc td : Z) :
  global_data (self w) = Some g →
  g !! "cases" = Some c → g !! "deaths" = Some d → g !! "recovered" = Some r →
  g !! "active" = Some a → g !! "critical" = Some cr →
  g !! "todayCases" = Some tc → g !! "todayDeaths" = Some td →
  c ≠ 0 →
  top_countries (self w) = Some top → has_base_columns top →
  (has_column "recovered" top = true → Forall (fun row => cases row ≠ 0) (rows top)) →
  ∃ lines report w',
    generate_report now w = (inr (Some report), w')
    ∧ mapM (report_row top) (rows top) w = (inr lines, w)
    ∧ report
      = (((report_totals now c d r a cr tc td
           +:+ "Global Death Rate: " +:+ rate_text d c +:+ "%" +:+ NL)
          +:+ "Global Recovery Rate: " +:+ rate_text r c +:+ "%" +:+ NL +:+ NL)
         +:+ table_header)
        +:+ concat_str lines
    ∧ self w' = self w
    ∧ outputs (disk w') !! "covid_report.txt" = Some (TextFile report).
Proof.
  destruct w as [s dk so]. cbn [self disk stdout].
  intros Hg Hc Hd Hr Ha Hcr Htc Htd Hnz Htop Hb Hrows.
  destruct (report_rows_run top (rows top) {| self := s; disk := dk; stdout := so |} Hb Hrows)
    as (lines & Hlines & _).
  exists lines. unfold generate_report, getitem, get_comma, percent, truediv.
  mrun. rewrite Hg, Hc, Hd, Hr, Ha, Hcr, Htc, Htd. mrun.
  rewrite bool_decide_eq_false_2 by done. mrun.
  rewrite Htop. rewrite Hlines.
  eexists _, _. split; [reflexivity|]. split; [reflexivity|].
  split; [reflexivity|]. split; [reflexivity|].
  cbn. apply lookup_insert_eq.
Qed.

(** C7: for a global summary with cases = 1000, deaths = 50 and
    recovered = 900 (and the other four counters), in a processed session,
    the report is generated, it contains the death rate as 5.00% and the
    recovery rate as 90.00%, and that text is what is written to
    covid_report.txt. *)
Theorem report_shows_both_rates (w : World) (g : gmap string Z) (top : DataFrame)
    (now : string) (a cr tc td : Z) :
  global_data (self w) = Some g →
  g !! "cases" = Some 1000 → g !! "deaths" = Some 50 → g !! "recovered" = Some 900 →
  g !! "active" = Some a → g !! "critical" = Some cr →
  g !! "todayCases" = Some tc → g !! "todayDeaths" = Some td →
  top_countries (self w) = Some top → has_base_columns top →
  (has_column "recovered" top = true → Forall (fun row => cases row ≠ 0) (rows top)) →
  ∃ report w',
    generate_report now w = (inr (Some report), w')
    ∧ contains report "Global Death Rate: 5.00%"
    ∧ contains report "Global Recovery Rate: 90.00%"
    ∧ outputs (disk w') !! "covid_report.txt" = Some (TextFile report).
Proof.
  intros Hg Hc Hd Hr Ha Hcr Htc Htd Htop Hb Hrows.
  destruct (generate_report_run w g top now 1000 50 900 a cr tc td)
    as (lines & report & w' & Hrun & _ & -> & _ & Hout); try done.
  eexists _, w'. split; [exact Hrun|].
  unfold rate_text. rewrite death_rate_50_of_1000, recovery_rate_900_of_1000.
  split; [|split; [|exact Hout]].
  - do 3 apply contains_app_l. exists (report_totals now 1000 50 900 a cr tc td), NL.
    reflexivity.
  - do 2 apply contains_app_l. apply contains_app_r.
    exists "", (NL +:+ NL). reflexivity.
Qed.

Lemma report_shows_both_rates_witness :
  ∃ report w',
    generate_report noon processed = (inr (Some report), w')
    ∧ contains report "Global Death Rate: 5.00%"
    ∧ contains report "Global Recovery Rate: 90.00%"
    ∧ outputs (disk w') !! "covid_report.txt" = Some (TextFile report).
Proof.
  apply (report_shows_both_rates processed sample_summary
           (top_of (H:=merge_pandas) three_countries) noon 50 3 7 1);
    try reflexivity.
  - repeat split; vm_compute; reflexivity.
  - intros _. repeat constructor; vm_compute; discriminate.
Defined.





(** C9: when the summary lacks 'critical', 'todayCases' or 'todayDeaths',
    report generation never gets to print N/A: it raises, and nothing is
    printed or written.  With the four totals present the exception is the
    formatting error of [format('N/A', ',')]. *)
Theorem report_missing_optional_counter_raises (w : World) (g : gmap string Z)
    (now : string) :
  global_data (self w) = Some g →
  g !! "critical" = None ∨ g !! "todayCases" = None ∨ g !! "todayDeaths" = None →
  (∃ e, generate_report now w = (inl e, w))
  ∧ (∀ c d r a,
       g !! "cases" = Some c → g !! "deaths" = Some d →
       g !! "recovered" = Some r → g !! "active" = Some a →
       generate_report now w = (inl (ValueError "Cannot specify ',' with 's'."), w)).
Proof.
  intros Hg Hopt. destruct w as [s dk so]. cbn [self] in Hg.
  unfold generate_report, getitem, get_comma. mrun. rewrite Hg.
  destruct (g !! "cases") as [c|]; mrun; [|split; [by eexists | done]].
  destruct (g !! "deaths") as [d|]; mrun; [|split; [by eexists | done]].
  destruct (g !! "recovered") as [r|]; mrun; [|split; [by eexists | done]].
  destruct (g !! "active") as [a|]; mrun; [|split; [by eexists | done]].
  destruct (g !! "critical") as [cr|]; mrun; [|split; [by eexists | done]].
  destruct (g !! "todayCases") as [tc|]; mrun; [|split; [by eexists | done]].
  destruct (g !! "todayDeaths") as [td|]; mrun; [|split; [by eexists | done]].
  destruct Hopt as [?|[?|?]]; discriminate.
Qed.

Lemma report_missing_optional_counter_raises_witness :
  (∃ e, generate_report noon (with_global totals_only processed)
        = (inl e, with_global totals_only processed))
  ∧ (∀ c d r a,
       totals_only !! "cases" = Some c → totals_only !! "deaths" = Some d →
       totals_only !! "recovered" = Some r → totals_only !! "active" = Some a →
       generate_report noon (with_global totals_only processed)
       = (inl (ValueError "Cannot specify ',' with 's'."),
          with_global totals_only processed)).
Proof.
  apply (report_missing_optional_counter_raises (with_global totals_only processed)
           totals_only noon); [reflexivity|].
  left. reflexivity.
Defined.

(** ** Report and charts before the process step *)

(** With a summary at hand and no processed table, the report never gets
    past line 224. *)
Lemma generate_report_unprocessed (w : World) (g : gmap string Z) (now : string) :
  global_data (self w) = Some g → top_countries (self w) = None →
  ∃ e, generate_report now w = (inl e, w).
Proof.
  intros Hg Htop. destruct w as [s dk so]. cbn [self] in Hg, Htop.
  unfold generate_report, getitem, get_comma, percent, truediv. mrun.
  rewrite Hg, Htop.
  repeat match goal with
         | |- context [g !! ?k] => destruct (g !! k); mrun; [|by eexists]
         end.
  repeat match goal with
         | |- context [bool_decide ?P] => destruct (bool_decide P); mrun; [by eexists|]
         end.
  by eexists.
Qed.

(** Likewise the charts never get past line 125. *)
Lemma visualize_data_unprocessed `{Pandas} (w : World) (g : gmap string Z)
    (l : list CountryRecord) (now : string) :
  global_data (self w) = Some g → countries_data (self w) = Some l →
  top_countries (self w) = None →
  ∃ e, visualize_data now w = (inl e, w).
Proof.
  intros Hg Hl Htop. destruct w as [s dk so]. cbn [self] in Hg, Hl, Htop.
  unfold visualize_data, getitem. mrun. rewrite Hg, Hl, Htop. cbn [mapM]. mrun.
  repeat match goal with
         | |- context [g !! ?k] => destruct (g !! k); mrun; [|by eexists]
         end.
  by eexists.
Qed.

(** C10: in every session that holds fetched or loaded data but no processed
    table, both the report and the charts raise an exception.  The session,
    the data directory and the console are returned as they were, so the
    guard message is not printed. *)
Theorem unprocessed_session_raises `{Pandas} (w : World) (g : gmap string Z)
    (l : list CountryRecord) (now : string) :
  global_data (self w) = Some g → countries_data (self w) = Some l →
  top_countries (self w) = None →
  (∃ e, generate_report now w = (inl e, w))
  ∧ (∃ e, visualize_data now w = (inl e, w)).
Proof.
  intros Hg Hl Htop. split.
  - by apply generate_report_unprocessed with g.
  - by apply visualize_data_unprocessed with g l.
Qed.

Lemma unprocessed_session_raises_witness :
  (fetch_data all_up fresh).1 = inr tt
  ∧ (∃ e, generate_report noon fetched = (inl e, fetched))
  ∧ (∃ e, visualize_data (H:=merge_pandas) noon fetched = (inl e, fetched)).
Proof.
  split; [reflexivity|].
  apply (unprocessed_session_raises (H:=merge_pandas) fetched sample_summary
           three_countries noon); reflexivity.
Defined.

(** ** Charts *)

Lemma bubble_sizes_rows (l : list CountryRecord) :
  bubble_sizes (map cases l) (map deaths l)
  = map (fun r => bubble_size (cases r) (deaths r)) l.
Proof. induction l as [|r l IH]; [done|]. cbn. by f_equal. Qed.

(** Dividing by a zero count gives an infinity or a NaN, and ten times that
    is no finite number either. *)
Lemma bubble_size_no_deaths (c : Z) : PyFloat.is_finite (bubble_size c 0) = false.
Proof.
  unfold bubble_size.
  assert (H10 : ∃ m e, PyFloat.of_int 10 = S754_finite false m e)
    by (vm_compute; eauto).
  destruct H10 as (m & e & ->).
  change (PyFloat.of_int 0) with (S754_zero false).
  by destruct (PyFloat.of_int c) as [s|s| |s mc ec].
Qed.

(** The charts, for a summary with the four plotted counters and a
    processed table, given that the trend panel can be drawn. *)
Lemma visualize_data_run `{Pandas} (w : World) (g : gmap string Z)
    (l : list CountryRecord) (top : DataFrame) (now : string)
    (cg dg rg ag : Z) (ax4 : Panel) :
  global_data (self w) = Some g → countries_data (self w) = Some l →
  top_countries (self w) = Some top → has_base_columns top →
  g !! "cases" = Some cg → g !! "deaths" = Some dg →
  g !! "recovered" = Some rg → g !! "active" = Some ag →
  trend_panel (self w) w = (inr ax4, w) →
  ∃ w' ax1 ax2,
    visualize_data now w = (inr tt, w')
    ∧ self w' = self w
    ∧ outputs (disk w') !! "covid_dashboard.png"
      = Some (Figure
                [ax1; ax2;
                 ScatterPanel (map cases (rows top)) (map deaths (rows top))
                   (map (fun r => bubble_size (cases r) (deaths r)) (rows top))
                   (map country (rows top));
                 ax4;
                 recovery_panel (map country (rows top)) top;
                 proportion_panel (map country (rows top)) top]
                ("Generated on " +:+ now)).
Proof.
  destruct w as [s dk so]. cbn [self].
  intros Hg Hl Htop (Hc1 & Hc2 & Hc3) Hcg Hdg Hrg Hag Htrend.
  unfold visualize_data, getitem, frame_getitem. mrun.
  rewrite Hg, Hl, Htop. cbn [mapM]. mrun.
  rewrite Hcg, Hdg, Hrg, Hag, Hc1, Hc2, Hc3. mrun.
  rewrite Htrend. rewrite bubble_sizes_rows.
  eexists _, _, _. split; [reflexivity|]. split; [reflexivity|].
  cbn. rewrite lookup_insert_ne by done. apply lookup_insert_eq.
Qed.

(** C8 (as the code has it): the bubble sizes are computed row by row as
    cases / deaths * 10 with no guard; whenever the charts are drawn, the
    scatter panel holds that value for every row, and for a row with
    deaths = 0 it is an infinity or a NaN, the result of the division by
    zero, which numpy evaluates without raising. *)
Theorem scatter_sizes_are_unguarded `{Pandas} (w : World) (g : gmap string Z)
    (l : list CountryRecord) (top : DataFrame) (now : string)
    (cg dg rg ag : Z) (ax4 : Panel) :
  global_data (self w) = Some g → countries_data (self w) = Some l →
  top_countries (self w) = Some top → has_base_columns top →
  g !! "cases" = Some cg → g !! "deaths" = Some dg →
  g !! "recovered" = Some rg → g !! "active" = Some ag →
  trend_panel (self w) w = (inr ax4, w) →
  ∃ w' ax1 ax2 ax5 ax6 caption sizes,
    visualize_data now w = (inr tt, w')
    ∧ outputs (disk w') !! "covid_dashboard.png"
      = Some (Figure [ax1; ax2;
                      ScatterPanel (map cases (rows top)) (map deaths (rows top))
                                   sizes (map country (rows top));
                      ax4; ax5; ax6] caption)
    ∧ sizes = map (fun r => bubble_size (cases r) (deaths r)) (rows top)
    ∧ ∀ r, r ∈ rows top → deaths r = 0 →
           PyFloat.is_finite (bubble_size (cases r) (deaths r)) = false.
Proof.
  intros Hg Hl Htop Hb Hcg Hdg Hrg Hag Htrend.
  destruct (visualize_data_run w g l top now cg dg rg ag ax4)
    as (w' & ax1 & ax2 & Hrun & _ & Hout); try done.
  eexists w', ax1, ax2, _, _, _, _. split; [exact Hrun|]. split; [exact Hout|].
  split; [reflexivity|].
  intros r _ ->. apply bubble_size_no_deaths.
Qed.

Lemma scatter_sizes_are_unguarded_witness :
  ∃ w' ax1 ax2 ax5 ax6 caption sizes,
    visualize_data (H:=merge_pandas) noon processed = (inr tt, w')
    ∧ outputs (disk w') !! "covid_dashboard.png"
      = Some (Figure [ax1; ax2;
                      ScatterPanel (map cases (rows (top_of (H:=merge_pandas) three_countries)))
                                   (map deaths (rows (top_of (H:=merge_pandas) three_countries)))
                                   sizes
                                   (map country (rows (top_of (H:=merge_pandas) three_countries)));
                      drawn_trend; ax5; ax6] caption)
    ∧ sizes = map (fun r => bubble_size (cases r) (deaths r))
                  (rows (top_of (H:=merge_pandas) three_countries))
    ∧ ∀ r, r ∈ rows (top_of (H:=merge_pandas) three_countries) → deaths r = 0 →
           PyFloat.is_finite (bubble_size (cases r) (deaths r)) = false.
Proof.
  apply (scatter_sizes_are_unguarded (H:=merge_pandas) processed sample_summary
           three_countries (top_of (H:=merge_pandas) three_countries) noon
           1000 50 900 50 drawn_trend); try reflexivity.
  repeat split; vm_compute; reflexivity.
Defined.

(** C8 fails on a table with a row that has no deaths: line 135 divides the
    whole column, and the size of that row is an infinity. *)
Lemma sizes_as_specified_fails :
  bubble_size 9 0 = S754_infinity false
  ∧ ¬ sizes_as_specified (top_of (H:=merge_pandas) three_countries).
Proof.
  split; [vm_compute; reflexivity|].
  intros Hspec. unfold sizes_as_specified in Hspec. rewrite Forall_forall in Hspec.
  assert (Hin : S754_infinity false
                ∈ bubble_sizes (map cases (rows (top_of (H:=merge_pandas) three_countries)))
                               (map deaths (rows (top_of (H:=merge_pandas) three_countries))))
    by (vm_compute; repeat constructor).
  apply Hspec in Hin. discriminate.
Qed.

(** ** A payload without recovery data *)

Lemma trend_panel_run `{Pandas} (s : Dashboard) (w : World) (tc td : SeriesFrame)
    (dates : list Z) :
  cases_df s = Some tc → deaths_df s = Some td →
  to_datetime (index tc) = Some dates →
  length dates = length (column_values td) →
  trend_panel s w = (inr (TrendPanel dates (column_values tc) (column_values td)), w).
Proof.
  intros Hc Hd Hdates Hlen. unfold trend_panel. rewrite Hc, Hdates, Hd.
  by rewrite bool_decide_eq_true_2.
Qed.

Lemma no_recovered_column_panels (countries : list string) (top : DataFrame) :
  has_column "recovered" top = false →
  recovery_panel countries top = EmptyPanel
  ∧ proportion_panel countries top = EmptyPanel.
Proof. intros Hr. unfold recovery_panel, proportion_panel. by rewrite Hr. Qed.

Lemma report_rows_without_recovered (top : DataFrame) (l : list CountryRecord)
    (w : World) :
  has_base_columns top → has_column "recovered" top = false →
  mapM (report_row top) l w = (inr (map na_row l), w).
Proof.
  intros Hb Hr. induction l as [|row l IH]; [done|].
  cbn [mapM]. unfold bind at 1. rewrite (report_row_run top row w Hb), Hr.
  unfold bind at 1. by rewrite IH.
Qed.

(** C5 (as the code has it): a historical payload with "cases" and "deaths"
    but no "recovered", processed after a non-empty country collection, is
    processed without an exception and no recovered table is made.  When in
    addition no record of the country collection carries a recovered count,
    the table has no such column: every row of the report loop is printed
    with N/A and panels (e) and (f) are left empty; and when the summary has
    the four plotted counters and the dates of the cases series parse and
    are as many as the deaths values, the charts are drawn without an
    exception, with those two panels empty. *)
Theorem missing_recovered_is_tolerated `{Pandas} (w : World) (l : list CountryRecord)
    (h : gmap string DateCounts) (c d : DateCounts) :
  countries_data (self w) = Some l → l ≠ [] →
  historical_data (self w) = Some h →
  h !! "recovered" = None → h !! "cases" = Some c → h !! "deaths" = Some d →
  ∃ w1,
    process_data w = (inr tt, w1)
    ∧ recovered_df (self w1) = recovered_df (self w)
    ∧ outputs (disk w1) !! "historical_recovered.csv"
      = outputs (disk w) !! "historical_recovered.csv"
    ∧ top_countries (self w1) = Some (top_of l)
    ∧ (has_key recovered l = false →
       mapM (report_row (top_of l)) (rows (top_of l)) w1
       = (inr (map na_row (rows (top_of l))), w1)
       ∧ recovery_panel (map country (rows (top_of l))) (top_of l) = EmptyPanel
       ∧ proportion_panel (map country (rows (top_of l))) (top_of l) = EmptyPanel
       ∧ ∀ (g : gmap string Z) (now : string) (cg dg rg ag : Z) (dates : list Z),
           global_data (self w) = Some g →
           g !! "cases" = Some cg → g !! "deaths" = Some dg →
           g !! "recovered" = Some rg → g !! "active" = Some ag →
           to_datetime (dict_keys c) = Some dates → length dates = length d →
           ∃ w2 ax1 ax2 ax3 ax4 caption,
             visualize_data now w1 = (inr tt, w2)
             ∧ outputs (disk w2) !! "covid_dashboard.png"
               = Some (Figure [ax1; ax2; ax3; ax4; EmptyPanel; EmptyPanel] caption)).
Proof.
  intros Hl Hne Hh Hhr Hhc Hhd.
  destruct (process_data_run w l h c d Hl Hne Hh Hhc Hhd)
    as (w1 & Hrun & _ & Hg1 & Hl1 & Htop1 & Hcdf & Hddf & Hrdf & Hout).
  rewrite Hhr in Hrdf, Hout. cbn in Hrdf, Hout.
  exists w1. do 4 (split; [done|]).
  intros Hnorec.
  pose proof (top_of_base_columns l Hne) as Hb.
  assert (Hcol : has_column "recovered" (top_of l) = false)
    by (by rewrite top_of_recovered_column).
  destruct (no_recovered_column_panels (map country (rows (top_of l))) (top_of l) Hcol)
    as [Hax5 Hax6].
  split; [by apply report_rows_without_recovered|].
  do 2 (split; [done|]).
  intros g now cg dg rg ag dates Hg Hcg Hdg Hrg Hag Hdates Hlen.
  destruct (visualize_data_run w1 g l (top_of l) now cg dg rg ag
              (TrendPanel dates (dict_values c) (dict_values d)))
    as (w2 & ax1 & ax2 & Hvis & _ & Hfig); try done.
  { by rewrite Hg1. }
  { apply (trend_panel_run (self w1) w1 (from_dict c "cases") (from_dict d "deaths"));
      try done.
    cbn. unfold dict_values. by rewrite length_map. }
  rewrite Hax5, Hax6 in Hfig.
  eexists w2, ax1, ax2, _, _, _. split; [exact Hvis | exact Hfig].
Qed.

Lemma missing_recovered_is_tolerated_witness :
  (∃ w1, process_data (H:=merge_pandas) ready = (inr tt, w1)
         ∧ recovered_df (self w1) = recovered_df (self ready)
         ∧ outputs (disk w1) !! "historical_recovered.csv"
           = outputs (disk ready) !! "historical_recovered.csv"
         ∧ top_countries (self w1) = Some (top_of (H:=merge_pandas) three_countries))
  ∧ (∃ w1 w2 ax1 ax2 ax3 ax4 caption,
       process_data (H:=merge_pandas) unrecovered_session = (inr tt, w1)
       ∧ recovered_df (self w1) = recovered_df (self unrecovered_session)
       ∧ outputs (disk w1) !! "historical_recovered.csv"
         = outputs (disk unrecovered_session) !! "historical_recovered.csv"
       ∧ top_countries (self w1) = Some (top_of (H:=merge_pandas) unrecovered_countries)
       ∧ mapM (report_row (top_of (H:=merge_pandas) unrecovered_countries))
              (rows (top_of (H:=merge_pandas) unrecovered_countries)) w1
         = (inr (map na_row (rows (top_of (H:=merge_pandas) unrecovered_countries))), w1)
       ∧ recovery_panel
           (map country (rows (top_of (H:=merge_pandas) unrecovered_countries)))
           (top_of (H:=merge_pandas) unrecovered_countries) = EmptyPanel
       ∧ proportion_panel
           (map country (rows (top_of (H:=merge_pandas) unrecovered_countries)))
           (top_of (H:=merge_pandas) unrecovered_countries) = EmptyPanel
       ∧ visualize_data (H:=merge_pandas) noon w1 = (inr tt, w2)
       ∧ outputs (disk w2) !! "covid_dashboard.png"
         = Some (Figure [ax1; ax2; ax3; ax4; EmptyPanel; EmptyPanel] caption)).
Proof.
  split.
  - destruct (missing_recovered_is_tolerated (H:=merge_pandas) ready three_countries
                cases_and_deaths two_days two_days_deaths)
      as (w1 & Hrun & Hrdf & Hcsv & Htop & _);
      try solve [reflexivity | discriminate].
    exists w1. repeat split; assumption.
  - destruct (missing_recovered_is_tolerated (H:=merge_pandas) unrecovered_session
                unrecovered_countries cases_and_deaths two_days two_days_deaths)
      as (w1 & Hrun & Hrdf & Hcsv & Htop & Hrest);
      try solve [reflexivity | discriminate].
    destruct (Hrest eq_refl) as (Hrows & Hax5 & Hax6 & Hcharts).
    destruct (Hcharts sample_summary noon 1000 50 900 50 [0; 1])
      as (w2 & ax1 & ax2 & ax3 & ax4 & caption & Hvis & Hfig);
      try solve [reflexivity | discriminate].
    exists w1, w2, ax1, ax2, ax3, ax4, caption. repeat split; assumption.
Defined.

(** C5 fails for a record without a count among records that have one: the
    column exists, line 228 finds it, and the row is printed with nan%. *)
Lemma na_as_specified_fails :
  report_row (top_of (H:=merge_pandas) three_countries)
             (mk_country "Peru" 9 0 None (Some 1)) fresh
  = (inr (format_row "Peru" 9 0 "nan%"), fresh)
  ∧ ¬ na_as_specified (H:=merge_pandas) three_countries.
Proof.
  split; [vm_compute; reflexivity|].
  intros Hspec.
  specialize (Hspec (mk_country "Peru" 9 0 None (Some 1))).
  assert (Hin : mk_country "Peru" 9 0 None (Some 1)
                ∈ rows (top_of (H:=merge_pandas) three_countries))
    by (vm_compute; set_solver).
  specialize (Hspec Hin eq_refl). vm_compute in Hspec. discriminate.
Qed.

(** * Further properties of the methods *)

(** ** Fetch and load together *)

(** A fetch with all three endpoints answering. *)
Lemma fetch_data_run (net : Upstream) (w : World) (g : gmap string Z)
    (c : list CountryRecord) (h : gmap string DateCounts) :
  global_endpoint net = Payload g → countries_endpoint net = Payload c →
  historical_endpoint net = Payload h →
  ∃ w', fetch_data net w = (inr tt, w')
    ∧ payloads (self w') = (Some g, Some c, Some h)
    ∧ countries_df (self w') = Some (make_frame (Some c))
    ∧ global_summary_json (disk w') = Stored g
    ∧ countries_data_json (disk w') = Stored c
    ∧ historical_data_json (disk w') = Stored h
    ∧ outputs (disk w') !! "countries_data.csv" = Some (CsvFrame (make_frame (Some c)))
    ∧ derived (self w') = derived (self w)
    ∧ stdout w' = (stdout w ++ ["Data fetched and saved to covid_data/"])%list.
Proof.
  destruct net as [rg rc rh], w as [s dk so].
  cbn [global_endpoint countries_endpoint historical_endpoint].
  intros -> -> ->. unfold fetch_data. mrun.
  eexists. split; [reflexivity|]. cbn.
  repeat split. apply lookup_insert_eq.
Qed.

(** X1: when all three endpoints answer, [fetch_data] returns normally: the
    session holds the three payloads and the frame of the country list, the
    three snapshots are in the data directory, the success line is printed,
    and the derived tables are as before. *)
Theorem fetch_all_answers (net : Upstream) (w : World) (g : gmap string Z)
    (c : list CountryRecord) (h : gmap string DateCounts) :
  global_endpoint net = Payload g → countries_endpoint net = Payload c →
  historical_endpoint net = Payload h →
  ∃ w', fetch_data net w = (inr tt, w')
    ∧ payloads (self w') = (Some g, Some c, Some h)
    ∧ countries_df (self w') = Some (make_frame (Some c))
    ∧ global_summary_json (disk w') = Stored g
    ∧ countries_data_json (disk w') = Stored c
    ∧ historical_data_json (disk w') = Stored h
    ∧ outputs (disk w') !! "countries_data.csv" = Some (CsvFrame (make_frame (Some c)))
    ∧ derived (self w') = derived (self w)
    ∧ stdout w' = (stdout w ++ ["Data fetched and saved to covid_data/"])%list.
Proof.
  destruct net as [rg rc rh], w as [s dk so].
  cbn [global_endpoint countries_endpoint historical_endpoint].
  intros -> -> ->. unfold fetch_data. mrun.
  eexists. split; [reflexivity|]. cbn.
  repeat split. apply lookup_insert_eq.
Qed.

Lemma fetch_all_answers_witness :
  ∃ w', fetch_data all_up fresh = (inr tt, w')
    ∧ payloads (self w') = (Some sample_summary, Some three_countries, Some cases_and_deaths)
    ∧ countries_df (self w') = Some (make_frame (Some three_countries))
    ∧ global_summary_json (disk w') = Stored sample_summary
    ∧ countries_data_json (disk w') = Stored three_countries
    ∧ historical_data_json (disk w') = Stored cases_and_deaths
    ∧ outputs (disk w') !! "countries_data.csv"
      = Some (CsvFrame (make_frame (Some three_countries)))
    ∧ derived (self w') = derived (self fresh)
    ∧ stdout w' = (stdout fresh ++ ["Data fetched and saved to covid_data/"])%list.
Proof.
  apply (fetch_all_answers all_up fresh sample_summary three_countries cases_and_deaths);
    reflexivity.
Defined.

(** X2: whatever the endpoints do, [fetch_data] leaves the derived tables
    (top countries and the three series tables) as they were: after a new
    fetch they still describe the data processed before. *)
Theorem fetch_keeps_derived_tables (net : Upstream) (w : World) :
  derived (self (fetch_data net w).2) = derived (self w).
Proof.
  destruct net as [[| |g] [| |c] [| |h]], w as [s dk so]; reflexivity.
Qed.

(** With the three snapshots in place, [load_data] adopts all three. *)
Lemma load_data_all_stored (w : World) (g : gmap string Z)
    (c : list CountryRecord) (h : gmap string DateCounts) :
  global_summary_json (disk w) = Stored g →
  countries_data_json (disk w) = Stored c →
  historical_data_json (disk w) = Stored h →
  ∃ w', load_data w = (inr tt, w')
    ∧ payloads (self w') = (Some g, Some c, Some h)
    ∧ derived (self w') = derived (self w)
    ∧ disk w' = disk w
    ∧ stdout w' = (stdout w ++ ["Data loaded from local files"])%list.
Proof.
  destruct w as [s [fg fc fh out] so].
  cbn [disk global_summary_json countries_data_json historical_data_json].
  intros -> -> ->. eexists. split; [reflexivity|]. by cbn.
Qed.

(** X3: what a successful fetch saved, a later load reads back: in any
    session over the data directory the fetch left (a restarted program,
    say), [load_data] succeeds and the three payloads are those fetched. *)
Theorem load_reads_back_fetch (net : Upstream) (w wf : World)
    (later : Dashboard) (console : list string) :
  fetch_data net w = (inr tt, wf) →
  ∃ w', load_data {| self := later; disk := disk wf; stdout := console |} = (inr tt, w')
    ∧ payloads (self w') = payloads (self wf)
    ∧ disk w' = disk wf.
Proof.
  destruct net as [[| |g] [| |c] [| |h]], w as [s dk so]; try discriminate.
  intros [= <-]. cbn [disk].
  destruct (load_data_all_stored
              {| self := later;
                 disk := disk (fetch_data
                                 {| global_endpoint := Payload g;
                                    countries_endpoint := Payload c;
                                    historical_endpoint := Payload h |}
                                 {| self := s; disk := dk; stdout := so |}).2;
                 stdout := console |} g c h)
    as (w' & Hrun & Hp & _ & Hd & _); try reflexivity.
  exists w'. split; [exact Hrun|]. split; [exact Hp | exact Hd].
Qed.

Lemma load_reads_back_fetch_witness :
  ∃ w', load_data {| self := init; disk := disk fetched; stdout := [] |} = (inr tt, w')
    ∧ payloads (self w') = payloads (self fetched)
    ∧ disk w' = disk fetched.
Proof.
  apply (load_reads_back_fetch all_up fresh fetched init []). reflexivity.
Defined.

(** X4: [load_data] only reads: whatever is in the data directory, the
    directory and the derived tables are as before. *)
Theorem load_only_reads (w : World) :
  disk (load_data w).2 = disk w
  ∧ derived (self (load_data w).2) = derived (self w).
Proof.
  destruct w as [s [[| |g] [| |c] [| |h] out] so]; split; reflexivity.
Qed.



(** ** Process *)

(** What the step leaves besides the tables, for a payload with both
    series: the payloads and snapshots as they were, the derived CSV files
    written. *)
Lemma process_data_run_files `{Pandas} (w : World) (l : list CountryRecord)
    (h : gmap string DateCounts) (c d : DateCounts) :
  countries_data (self w) = Some l → l ≠ [] →
  historical_data (self w) = Some h →
  h !! "cases" = Some c → h !! "deaths" = Some d →
  ∃ w', process_data w = (inr tt, w')
    ∧ payloads (self w') = payloads (self w)
    ∧ countries_df (self w') = countries_df (self w)
    ∧ global_summary_json (disk w') = global_summary_json (disk w)
    ∧ countries_data_json (disk w') = countries_data_json (disk w)
    ∧ historical_data_json (disk w') = historical_data_json (disk w)
    ∧ outputs (disk w') !! "top_countries.csv" = Some (CsvFrame (top_of l))
    ∧ outputs (disk w') !! "historical_cases.csv" = Some (CsvSeries (from_dict c "cases"))
    ∧ outputs (disk w') !! "historical_deaths.csv"
      = Some (CsvSeries (from_dict d "deaths")).
Proof.
  destruct w as [s dk so]. cbn [self disk stdout].
  intros Hc Hl Hh Hhc Hhd.
  unfold process_data. mrun. rewrite Hc. mrun. rewrite Hc.
  unfold sort_values_cases. rewrite (has_column_cases_nonempty l Hl). mrun.
  cbn [historical_data set_top_countries]. rewrite Hh.
  unfold getitem. rewrite Hhc, Hhd. mrun.
  destruct (is_empty_dict (default [] (h !! "recovered"))); mrun;
    (eexists; split; [reflexivity|]); cbn; repeat split; try done;
    repeat (rewrite lookup_insert_ne by done); by rewrite ?lookup_insert_eq.
Qed.

(** With no country list in memory, the step is the step on what the load
    left. *)
Lemma process_data_after_load `{Pandas} (w wl : World) (l : list CountryRecord) :
  countries_data (self w) = None →
  load_data w = (inr tt, wl) →
  countries_data (self wl) = Some l →
  process_data w = process_data wl.
Proof.
  intros Hnone Hload Hsome. unfold process_data.
  unfold bind at 1. unfold get_self at 1. rewrite Hnone.
  unfold bind at 1. rewrite Hload.
  symmetry. unfold bind at 1. unfold get_self at 1. rewrite Hsome.
  unfold bind at 1. reflexivity.
Qed.

(** X6: asked to process with no country list in memory, the step loads the
    snapshots first: with all three in the data directory (a non-empty
    country list, a history with both series) it succeeds, the session holds
    the loaded payloads, and the table is the one of the stored list. *)
Theorem process_loads_snapshots_first `{Pandas} (w : World) (g : gmap string Z)
    (c : list CountryRecord) (h : gmap string DateCounts) (ch dh : DateCounts) :
  countries_data (self w) = None →
  global_summary_json (disk w) = Stored g →
  countries_data_json (disk w) = Stored c →
  historical_data_json (disk w) = Stored h →
  c ≠ [] → h !! "cases" = Some ch → h !! "deaths" = Some dh →
  ∃ w', process_data w = (inr tt, w')
    ∧ payloads (self w') = (Some g, Some c, Some h)
    ∧ top_countries (self w') = Some (top_of c)
    ∧ outputs (disk w') !! "top_countries.csv" = Some (CsvFrame (top_of c))
    ∧ stdout w' = (stdout w ++ ["Data loaded from local files"])%list.
Proof.
  intros Hnone Hg Hc Hh Hne Hch Hdh.
  destruct (load_data_all_stored w g c h Hg Hc Hh) as (wl & Hload & Hp & _ & Hd & Hout).
  pose proof Hp as Hp'. injection Hp' as Hgl Hcl Hhl.
  destruct (process_data_run wl c h ch dh Hcl Hne Hhl Hch Hdh)
    as (w' & Hrun & Hso & _ & _ & Htop & _).
  destruct (process_data_run_files wl c h ch dh Hcl Hne Hhl Hch Hdh)
    as (w'' & Hrun' & Hpay & _ & _ & _ & _ & Hcsv & _).
  rewrite Hrun in Hrun'. injection Hrun' as <-.
  exists w'. rewrite (process_data_after_load w wl c Hnone Hload Hcl).
  split; [exact Hrun|]. rewrite Hpay, Hp, Hso, Hout. done.
Qed.

Lemma process_loads_snapshots_first_witness :
  ∃ w', process_data (H:=merge_pandas)
          {| self := init; disk := disk fetched; stdout := [] |} = (inr tt, w')
    ∧ payloads (self w') = (Some sample_summary, Some three_countries, Some cases_and_deaths)
    ∧ top_countries (self w') = Some (top_of (H:=merge_pandas) three_countries)
    ∧ outputs (disk w') !! "top_countries.csv"
      = Some (CsvFrame (top_of (H:=merge_pandas) three_countries))
    ∧ stdout w' = ([] ++ ["Data loaded from local files"])%list.
Proof.
  apply (process_loads_snapshots_first (H:=merge_pandas)
           {| self := init; disk := disk fetched; stdout := [] |}
           sample_summary three_countries cases_and_deaths two_days two_days_deaths);
    solve [reflexivity | discriminate].
Defined.

(** X7: asked to process with no country list in memory and no country
    snapshot to load (the summary file or the country file is missing), the
    step prints the not-found line and then raises [KeyError] on the empty
    frame; no table is assigned and nothing is written. *)
Theorem process_without_any_data_raises `{Pandas} (w : World) :
  countries_data (self w) = None →
  is_missing (global_summary_json (disk w))
  || is_stored (global_summary_json (disk w))
     && is_missing (countries_data_json (disk w)) = true →
  ∃ w', process_data w = (inl (KeyError "cases"), w')
    ∧ stdout w' = (stdout w ++ [not_found_message])%list
    ∧ derived (self w') = derived (self w)
    ∧ disk w' = disk w.
Proof.
  destruct w as [s [fg fc fh out] so].
  cbn [self disk global_summary_json countries_data_json].
  intros Hnone Hgap. unfold process_data.
  unfold bind at 1. unfold get_self at 1. cbn [self]. rewrite Hnone.
  destruct fg as [| |g]; [|discriminate|].
  - unfold bind at 1. cbn. rewrite Hnone. cbn.
    eexists; split; [reflexivity|]. done.
  - destruct fc as [| |c]; try discriminate.
    unfold bind at 1. cbn. rewrite Hnone. cbn.
    eexists; split; [reflexivity|]. done.
Qed.

Lemma process_without_any_data_raises_witness :
  ∃ w', process_data (H:=merge_pandas) fresh = (inl (KeyError "cases"), w')
    ∧ stdout w' = (stdout fresh ++ [not_found_message])%list
    ∧ derived (self w') = derived (self fresh)
    ∧ disk w' = disk fresh.
Proof.
  apply (process_without_any_data_raises (H:=merge_pandas) fresh); reflexivity.
Defined.

(** X8: with a country list in memory, the step never changes the three
    payloads or the snapshots, whether it succeeds or raises: it only
    derives. *)
Theorem process_keeps_payloads `{Pandas} (w : World) (l : list CountryRecord) :
  countries_data (self w) = Some l →
  payloads (self (process_data w).2) = payloads (self w)
  ∧ global_summary_json (disk (process_data w).2) = global_summary_json (disk w)
  ∧ countries_data_json (disk (process_data w).2) = countries_data_json (disk w)
  ∧ historical_data_json (disk (process_data w).2) = historical_data_json (disk w).
Proof.
  destruct w as [s dk so]. cbn [self disk]. intros Hc.
  unfold process_data. mrun. rewrite Hc. mrun. rewrite Hc.
  unfold sort_values_cases. destruct (has_column "cases" (make_frame (Some l))); mrun;
    [|done].
  cbn [historical_data set_top_countries].
  destruct (historical_data s) as [h|] eqn:Hh; mrun; [|by rewrite ?Hh].
  unfold getitem.
  destruct (h !! "cases") as [ch|]; mrun; [|by rewrite ?Hh].
  destruct (h !! "deaths") as [dh|]; mrun; [|by rewrite ?Hh].
  destruct (is_empty_dict (default [] (h !! "recovered"))); mrun; by rewrite ?Hh.
Qed.

Lemma process_keeps_payloads_witness :
  payloads (self (process_data (H:=merge_pandas) ready).2) = payloads (self ready)
  ∧ global_summary_json (disk (process_data (H:=merge_pandas) ready).2)
    = global_summary_json (disk ready)
  ∧ countries_data_json (disk (process_data (H:=merge_pandas) ready).2)
    = countries_data_json (disk ready)
  ∧ historical_data_json (disk (process_data (H:=merge_pandas) ready).2)
    = historical_data_json (disk ready).
Proof.
  apply (process_keeps_payloads (H:=merge_pandas) ready three_countries). reflexivity.
Defined.

(** X9: the table holds the largest: the input splits into the rows of the
    table and the rows left out, and no row left out has more cases than
    any row of the table. *)
Theorem top_countries_are_the_largest `{Pandas} (w : World) (l : list CountryRecord) :
  countries_data (self w) = Some l → l ≠ [] →
  ∃ top rest, top_countries (self (process_data w).2) = Some top
    ∧ rows top ++ rest ≡ₚ l
    ∧ ∀ kept out, kept ∈ rows top → out ∈ rest → (cases out ≤ cases kept)%Z.
Proof.
  intros Hc Hl. exists (top_of l), (drop 10 (sort_rows_desc l)).
  split; [by apply process_data_top|]. cbn [top_of head rows].
  split.
  - rewrite take_drop. apply sort_rows_desc_perm.
  - intros kept out Hk Ho.
    pose proof (sort_rows_desc_sorted l) as Hs.
    rewrite <- (take_drop 10 (sort_rows_desc l)) in Hs.
    exact (StronglySorted_app_1_elem_of _ _ _ _ _ Hs Hk Ho).
Qed.

Lemma top_countries_are_the_largest_witness :
  ∃ top rest,
    top_countries (self (process_data (H:=merge_pandas)
                           (with_countries three_countries fresh)).2) = Some top
    ∧ rows top ++ rest ≡ₚ three_countries
    ∧ ∀ kept out, kept ∈ rows top → out ∈ rest → (cases out ≤ cases kept)%Z.
Proof.
  apply (top_countries_are_the_largest (H:=merge_pandas)
           (with_countries three_countries fresh) three_countries);
    [reflexivity | discriminate].
Defined.

(** X10: a collection of at most ten countries is kept whole: the table is
    a rearrangement of the input, and its first row has the most cases. *)
Theorem small_collection_is_kept_whole `{Pandas} (w : World) (l : list CountryRecord) :
  countries_data (self w) = Some l → l ≠ [] → (length l ≤ 10)%nat →
  ∃ top first others, top_countries (self (process_data w).2) = Some top
    ∧ rows top ≡ₚ l
    ∧ rows top = first :: others
    ∧ ∀ r, r ∈ l → (cases r ≤ cases first)%Z.
Proof.
  intros Hc Hl Hlen.
  assert (Htake : take 10 (sort_rows_desc l) = sort_rows_desc l).
  { apply take_ge. by rewrite (Permutation_length (sort_rows_desc_perm l)). }
  pose proof (sort_rows_desc_sorted l) as Hs.
  pose proof (sort_rows_desc_perm l) as Hp.
  destruct (sort_rows_desc l) as [|first others] eqn:Hsort.
  { apply Permutation_nil_l in Hp. done. }
  exists (top_of l), first, others.
  split; [by apply process_data_top|]. cbn [top_of head rows].
  rewrite Hsort, Htake. split; [exact Hp|]. split; [reflexivity|].
  intros r Hr. rewrite <- Hp in Hr.
  apply elem_of_cons in Hr as [->|Hr]; [done|].
  apply StronglySorted_inv in Hs as [_ Hall].
  rewrite Forall_forall in Hall. by apply Hall.
Qed.

Lemma small_collection_is_kept_whole_witness :
  ∃ top first others,
    top_countries (self (process_data (H:=merge_pandas)
                           (with_countries three_countries fresh)).2) = Some top
    ∧ rows top ≡ₚ three_countries
    ∧ rows top = first :: others
    ∧ ∀ r, r ∈ three_countries → (cases r ≤ cases first)%Z.
Proof.
  apply (small_collection_is_kept_whole (H:=merge_pandas)
           (with_countries three_countries fresh) three_countries);
    [reflexivity | discriminate | vm_compute; lia].
Defined.

(** Two output maps built from the same writes are the same map. *)
Ltac same_outputs :=
  apply map_eq; intros k;
  rewrite !lookup_insert; repeat case_decide; simplify_eq; done.

(** X11: processing is repeatable: a second run right after a successful
    one succeeds and leaves the session, the data directory and the console
    exactly as the first run left them. *)
Theorem process_twice_changes_nothing `{Pandas} (w : World) (l : list CountryRecord)
    (h : gmap string DateCounts) (c d : DateCounts) :
  countries_data (self w) = Some l → l ≠ [] →
  historical_data (self w) = Some h →
  h !! "cases" = Some c → h !! "deaths" = Some d →
  ∃ w1, process_data w = (inr tt, w1) ∧ process_data w1 = (inr tt, w1).
Proof.
  destruct w as [s dk so]. cbn [self disk stdout].
  intros Hc Hl Hh Hhc Hhd.
  unfold process_data. mrun. rewrite Hc. mrun. rewrite Hc.
  unfold sort_values_cases. rewrite (has_column_cases_nonempty l Hl). mrun.
  cbn [historical_data set_top_countries]. rewrite Hh.
  unfold getitem. rewrite Hhc, Hhd. mrun.
  destruct (is_empty_dict (default [] (h !! "recovered"))) eqn:He; mrun;
    (eexists; split; [reflexivity|]);
    cbn; rewrite Hc; mrun; cbn; rewrite Hc;
    rewrite (has_column_cases_nonempty l Hl); mrun; cbn; rewrite Hh;
    rewrite Hhc, Hhd; mrun; rewrite He; mrun; cbn;
    f_equal; f_equal; f_equal; same_outputs.
Qed.

Lemma process_twice_changes_nothing_witness :
  ∃ w1, process_data (H:=merge_pandas) ready = (inr tt, w1)
        ∧ process_data (H:=merge_pandas) w1 = (inr tt, w1).
Proof.
  apply (process_twice_changes_nothing (H:=merge_pandas) ready three_countries
           cases_and_deaths two_days two_days_deaths);
    solve [reflexivity | discriminate].
Defined.

(** ** Report *)

(** One pass of the report loop touches nothing. *)
Lemma report_row_pure (top : DataFrame) (row : CountryRecord) (w : World) :
  (report_row top row w).2 = w.
Proof.
  unfold report_row, row_getitem, percent, truediv. mrun.
  destruct (has_column "country" top); [|done].
  destruct (has_column "cases" top); [|done].
  destruct (has_column "deaths" top); [|done].
  destruct (has_column "recovered" top); [|done].
  by destruct (bool_decide (cases row = 0)).
Qed.

Lemma report_rows_pure (top : DataFrame) (l : list CountryRecord) (w : World) :
  (mapM (report_row top) l w).2 = w.
Proof.
  induction l as [|row l IH]; [done|].
  cbn [mapM]. unfold bind at 1.
  pose proof (report_row_pure top row w) as Hrow.
  destruct (report_row top row w) as [[e|line] w1]; cbn in Hrow; subst w1; [done|].
  unfold bind at 1.
  destruct (mapM (report_row top) l w) as [[e|lines] w2]; cbn in IH; subst w2; done.
Qed.

(** X12: report generation is all or nothing, and never touches the
    session.  If it raises, the world is exactly as before: nothing printed,
    no file written.  If it returns [None], only the guard line was printed,
    and that happens exactly when no summary is in memory.  If it returns a
    text, that text is what covid_report.txt now holds. *)
Theorem report_is_all_or_nothing (w : World) (now : string) :
  self (generate_report now w).2 = self w
  ∧ (∀ e, (generate_report now w).1 = inl e → (generate_report now w).2 = w)
  ∧ ((generate_report now w).1 = inr None ↔ global_data (self w) = None)
  ∧ ((generate_report now w).1 = inr None →
     disk (generate_report now w).2 = disk w
     ∧ stdout (generate_report now w).2 = (stdout w ++ [no_data_message])%list)
  ∧ (∀ text, (generate_report now w).1 = inr (Some text) →
       outputs (disk (generate_report now w).2) !! "covid_report.txt"
       = Some (TextFile text)
       ∧ stdout (generate_report now w).2
         = (stdout w ++ ["Report saved to covid_data/covid_report.txt"])%list).
Proof.
  destruct w as [s dk so].
  unfold generate_report, getitem, get_comma, percent, truediv. mrun.
  destruct (global_data s) as [g|] eqn:Hg; mrun.
  2: { repeat split; intros; simplify_eq/=; done. }
  repeat match goal with
         | |- context [g !! ?k] =>
             destruct (g !! k); mrun;
             [|repeat split; intros; simplify_eq/=; done]
         end.
  repeat match goal with
         | |- context [bool_decide ?P] =>
             destruct (bool_decide P); mrun;
             [repeat split; intros; simplify_eq/=; done|]
         end.
  destruct (top_countries s) as [top|]; mrun;
    [|repeat split; intros; simplify_eq/=; done].
  pose proof (report_rows_pure top (rows top) {| self := s; disk := dk; stdout := so |})
    as Hpure.
  destruct (mapM (report_row top) (rows top) {| self := s; disk := dk; stdout := so |})
    as [[e|lines] w1]; cbn in Hpure; subst w1; mrun;
    repeat split; intros; simplify_eq/=; try done.
  apply lookup_insert_eq.
Qed.

Lemma report_is_all_or_nothing_witness :
  self (generate_report noon processed).2 = self processed
  ∧ (∀ e, (generate_report noon processed).1 = inl e →
          (generate_report noon processed).2 = processed)
  ∧ ((generate_report noon processed).1 = inr None ↔ global_data (self processed) = None)
  ∧ ((generate_report noon processed).1 = inr None →
     disk (generate_report noon processed).2 = disk processed
     ∧ stdout (generate_report noon processed).2
       = (stdout processed ++ [no_data_message])%list)
  ∧ (∀ text, (generate_report noon processed).1 = inr (Some text) →
       outputs (disk (generate_report noon processed).2) !! "covid_report.txt"
       = Some (TextFile text)
       ∧ stdout (generate_report noon processed).2
         = (stdout processed ++ ["Report saved to covid_data/covid_report.txt"])%list).
Proof. apply (report_is_all_or_nothing processed noon). Defined.

(** ** Charts *)

Lemma trend_panel_pure `{Pandas} (s : Dashboard) (w : World) :
  (trend_panel s w).2 = w.
Proof.
  unfold trend_panel. destruct (cases_df s) as [cdf|]; [|done].
  destruct (to_datetime (index cdf)) as [dates|]; [|done].
  destruct (deaths_df s) as [ddf|]; [|done].
  by destruct (bool_decide (length dates = length (column_values ddf))).
Qed.

(** Close the cases of a method that stopped early. *)
Ltac settle :=
  repeat split; intros; simplify_eq/=; try done;
  try match goal with
      | Hor : _ ∨ _ |- _ => destruct Hor; congruence
      end.

(** X13: drawing the charts is all or nothing, and never touches the
    session.  If it raises, the world is exactly as before.  With the
    summary or the country list missing it prints the guard line and writes
    nothing.  Otherwise, when it returns, covid_dashboard.png and
    covid_dashboard.pdf hold one and the same figure of six panels. *)
Theorem charts_are_all_or_nothing `{Pandas} (w : World) (now : string) :
  self (visualize_data now w).2 = self w
  ∧ (∀ e, (visualize_data now w).1 = inl e → (visualize_data now w).2 = w)
  ∧ (countries_data (self w) = None ∨ global_data (self w) = None →
     visualize_data now w
     = (inr tt, {| self := self w; disk := disk w;
                   stdout := (stdout w ++ [no_data_message])%list |}))
  ∧ (is_Some (countries_data (self w)) → is_Some (global_data (self w)) →
     (visualize_data now w).1 = inr tt →
     ∃ ax1 ax2 ax3 ax4 ax5 ax6,
       outputs (disk (visualize_data now w).2) !! "covid_dashboard.png"
       = Some (Figure [ax1; ax2; ax3; ax4; ax5; ax6] ("Generated on " +:+ now))
       ∧ outputs (disk (visualize_data now w).2) !! "covid_dashboard.pdf"
         = Some (Figure [ax1; ax2; ax3; ax4; ax5; ax6] ("Generated on " +:+ now))
       ∧ stdout (visualize_data now w).2
         = (stdout w ++ ["Visualizations saved to covid_data/"])%list).
Proof.
  destruct w as [s dk so].
  unfold visualize_data, getitem, frame_getitem. mrun.
  destruct (countries_data s) as [l|] eqn:Hl; mrun.
  2: { settle. }
  destruct (global_data s) as [g|] eqn:Hg; mrun.
  2: { settle. }
  cbn [mapM]. mrun.
  repeat match goal with
         | |- context [g !! ?k] => destruct (g !! k); mrun; [|settle]
         end.
  destruct (top_countries s) as [top|]; mrun; [|settle].
  repeat match goal with
         | |- context [has_column ?c top] => destruct (has_column c top); mrun; [|settle]
         end.
  pose proof (trend_panel_pure s {| self := s; disk := dk; stdout := so |}) as Hpure.
  destruct (trend_panel s {| self := s; disk := dk; stdout := so |})
    as [[e|ax4] w1]; cbn in Hpure; subst w1; mrun; [settle|].
  settle.
  eexists _, _, _, _, _, _. split; [|split; [|reflexivity]].
  - rewrite lookup_insert_ne by done. apply lookup_insert_eq.
  - apply lookup_insert_eq.
Qed.

Lemma charts_are_all_or_nothing_witness :
  self (visualize_data (H:=merge_pandas) noon processed).2 = self processed
  ∧ (∀ e, (visualize_data (H:=merge_pandas) noon processed).1 = inl e →
          (visualize_data (H:=merge_pandas) noon processed).2 = processed)
  ∧ (countries_data (self processed) = None ∨ global_data (self processed) = None →
     visualize_data (H:=merge_pandas) noon processed
     = (inr tt, {| self := self processed; disk := disk processed;
                   stdout := (stdout processed ++ [no_data_message])%list |}))
  ∧ (is_Some (countries_data (self processed)) → is_Some (global_data (self processed)) →
     (visualize_data (H:=merge_pandas) noon processed).1 = inr tt →
     ∃ ax1 ax2 ax3 ax4 ax5 ax6,
       outputs (disk (visualize_data (H:=merge_pandas) noon processed).2)
         !! "covid_dashboard.png"
       = Some (Figure [ax1; ax2; ax3; ax4; ax5; ax6] ("Generated on " +:+ noon))
       ∧ outputs (disk (visualize_data (H:=merge_pandas) noon processed).2)
           !! "covid_dashboard.pdf"
         = Some (Figure [ax1; ax2; ax3; ax4; ax5; ax6] ("Generated on " +:+ noon))
       ∧ stdout (visualize_data (H:=merge_pandas) noon processed).2
         = (stdout processed ++ ["Visualizations saved to covid_data/"])%list).
Proof. apply (charts_are_all_or_nothing (H:=merge_pandas) processed noon). Defined.

(** ** The width of the report table *)

Lemma length_app_str (a b : string) :
  String.length (a +:+ b) = (String.length a + String.length b)%nat.
Proof.
  induction a as [|x a IH]; [done|].
  change (S (String.length (a +:+ b)) = S (String.length a + String.length b)).
  by rewrite IH.
Qed.

Lemma length_spaces (n : nat) : String.length (Fmt.spaces n) = n.
Proof.
  induction n as [|n IH]; [done|].
  change (S (String.length (Fmt.spaces n)) = S n). by rewrite IH.
Qed.

Lemma length_ljust (w : nat) (s : string) :
  String.length (Fmt.ljust w s) = Nat.max w (String.length s).
Proof. unfold Fmt.ljust. rewrite length_app_str, length_spaces. lia. Qed.

Lemma length_rjust (w : nat) (s : string) :
  String.length (Fmt.rjust w s) = Nat.max w (String.length s).
Proof. unfold Fmt.rjust. rewrite length_app_str, length_spaces. lia. Qed.

(** X14: a table line of the report is as wide as its four fields padded to
    15, 12, 10 and 15 characters, with three spaces between them and the
    newline: 56 characters when every field fits its column, and longer by
    the overflow otherwise, since a field is padded but never cut. *)
Theorem report_row_width (name : string) (c d : Z) (recovery_str : string) :
  String.length (format_row name c d recovery_str)
  = (Nat.max 15 (String.length name)
     + Nat.max 12 (String.length (Fmt.comma c))
     + Nat.max 10 (String.length (Fmt.comma d))
     + Nat.max 15 (String.length recovery_str) + 4)%nat
  ∧ (row_width + 1 ≤ String.length (format_row name c d recovery_str))%nat
  ∧ ((String.length name ≤ 15)%nat → (String.length (Fmt.comma c) ≤ 12)%nat →
     (String.length (Fmt.comma d) ≤ 10)%nat → (String.length recovery_str ≤ 15)%nat →
     String.length (format_row name c d recovery_str) = (row_width + 1)%nat).
Proof.
  assert (Hlen : String.length (format_row name c d recovery_str)
                 = (Nat.max 15 (String.length name)
                    + Nat.max 12 (String.length (Fmt.comma c))
                    + Nat.max 10 (String.length (Fmt.comma d))
                    + Nat.max 15 (String.length recovery_str) + 4)%nat).
  { unfold format_row. rewrite !length_app_str, length_ljust, !length_rjust.
    change (String.length " ") with 1%nat. change (String.length NL) with 1%nat. lia. }
  rewrite Hlen. unfold row_width. repeat split; lia.
Qed.

Lemma report_row_width_witness :
  String.length (format_row "Peru" 9 0 "N/A") = (row_width + 1)%nat.
Proof.
  apply (report_row_width "Peru" 9 0 "N/A"); vm_compute; lia.
Defined.

(** ** The three steps in a row *)

Lemma top_of_rows_Forall `{Pandas} (P : CountryRecord → Prop) (l : list CountryRecord) :
  Forall P l → Forall P (rows (top_of l)).
Proof.
  intros Hl. cbn [top_of head rows]. apply Forall_take.
  by rewrite (sort_rows_desc_perm l).
Qed.

(** X15: fetch, process, report and charts compose: when all three
    endpoints answer with a complete summary (cases not zero), a non-empty
    country list without a zero case count and a history with parseable,
    aligned "cases" and "deaths" series, the four steps succeed one after
    the other from any session, and the report text and the figure are in
    the data directory. *)
Theorem pipeline_succeeds `{Pandas} (net : Upstream) (w : World) (now : string)
    (g : gmap string Z) (c : list CountryRecord) (h : gmap string DateCounts)
    (ch dh : DateCounts) (cg dg rg ag cr tc td : Z) (dates : list Z) :
  global_endpoint net = Payload g → countries_endpoint net = Payload c →
  historical_endpoint net = Payload h →
  g !! "cases" = Some cg → g !! "deaths" = Some dg → g !! "recovered" = Some rg →
  g !! "active" = Some ag → g !! "critical" = Some cr →
  g !! "todayCases" = Some tc → g !! "todayDeaths" = Some td → cg ≠ 0 →
  c ≠ [] → Forall (fun row => cases row ≠ 0) c →
  h !! "cases" = Some ch → h !! "deaths" = Some dh →
  to_datetime (dict_keys ch) = Some dates → length dates = length dh →
  ∃ w1 w2 w3 w4 report ax1 ax2 ax3 ax4 ax5 ax6,
    fetch_data net w = (inr tt, w1)
    ∧ process_data w1 = (inr tt, w2)
    ∧ generate_report now w2 = (inr (Some report), w3)
    ∧ visualize_data now w3 = (inr tt, w4)
    ∧ top_countries (self w4) = Some (top_of c)
    ∧ outputs (disk w3) !! "covid_report.txt" = Some (TextFile report)
    ∧ outputs (disk w4) !! "covid_dashboard.png"
      = Some (Figure [ax1; ax2; ax3; ax4; ax5; ax6] ("Generated on " +:+ now)).
Proof.
  intros Hng Hnc Hnh Hcg Hdg Hrg Hag Hcr Htc Htd Hnz Hne Hall Hch Hdh Hdates Hlen.
  destruct (fetch_data_run net w g c h Hng Hnc Hnh) as (w1 & Hfetch & Hp1 & _).
  injection Hp1 as Hg1 Hc1 Hh1.
  destruct (process_data_run w1 c h ch dh Hc1 Hne Hh1 Hch Hdh)
    as (w2 & Hproc & _ & Hg2 & Hc2 & Htop2 & Hcdf & Hddf & _).
  rewrite Hg1 in Hg2.
  destruct (generate_report_run w2 g (top_of c) now cg dg rg ag cr tc td)
    as (lines & report & w3 & Hrep & _ & _ & Hself3 & Hout3); try done.
  { by apply top_of_base_columns. }
  { intros _. by apply top_of_rows_Forall. }
  destruct (visualize_data_run w3 g c (top_of c) now cg dg rg ag
              (TrendPanel dates (dict_values ch) (dict_values dh)))
    as (w4 & ax1 & ax2 & Hvis & Hself4 & Hfig); try done; rewrite ?Hself3; try done.
  { by apply top_of_base_columns. }
  { apply (trend_panel_run (self w2) w3 (from_dict ch "cases") (from_dict dh "deaths"));
      try done.
    cbn. unfold dict_values. by rewrite length_map. }
  eexists w1, w2, w3, w4, report, ax1, ax2, _, _, _, _.
  repeat split; try done.
  by rewrite Hself4, Hself3.
Qed.

Lemma pipeline_succeeds_witness :
  ∃ w1 w2 w3 w4 report ax1 ax2 ax3 ax4 ax5 ax6,
    fetch_data all_up fresh = (inr tt, w1)
    ∧ process_data (H:=merge_pandas) w1 = (inr tt, w2)
    ∧ generate_report noon w2 = (inr (Some report), w3)
    ∧ visualize_data (H:=merge_pandas) noon w3 = (inr tt, w4)
    ∧ top_countries (self w4) = Some (top_of (H:=merge_pandas) three_countries)
    ∧ outputs (disk w3) !! "covid_report.txt" = Some (TextFile report)
    ∧ outputs (disk w4) !! "covid_dashboard.png"
      = Some (Figure [ax1; ax2; ax3; ax4; ax5; ax6] ("Generated on " +:+ noon)).
Proof.
  apply (pipeline_succeeds (H:=merge_pandas) all_up fresh noon sample_summary
           three_countries cases_and_deaths two_days two_days_deaths
           1000 50 900 50 3 7 1 [0; 1]);
    try solve [reflexivity | discriminate].
  repeat constructor; vm_compute; discriminate.
Defined.

(** ** The menu loop *)

Lemma prompted_eq (w : World) :
  prompted w = {| self := self w; disk := disk w;
                  stdout := (stdout w ++ menu ++ [prompt])%list |}.
Proof.
  destruct w as [s dk so]. unfold prompted, menu. cbn [print_lines]. mrun.
  f_equal. by rewrite <- !app_assoc.
Qed.

Lemma menu_loop_cons `{Pandas} (net : nat -> Upstream) (clock : nat -> string)
    (i : nat) (choice : string) (rest : list string) (w : World) :
  menu_loop net clock i (choice :: rest) w
  = match dispatch (net i) (clock i) choice (prompted w) with
    | (inl e, w2) => (Crashed e, w2)
    | (inr true, w2) => menu_loop net clock (S i) rest w2
    | (inr false, w2) => (Exited, w2)
    end.
Proof. reflexivity. Qed.

(** The branch each valid choice takes. *)
Lemma dispatch_1 `{Pandas} (net : Upstream) (now : string) :
  dispatch net now "1" = (fetch_data net ;;; ret true).
Proof. reflexivity. Qed.

Lemma dispatch_2 `{Pandas} (net : Upstream) (now : string) :
  dispatch net now "2" = (load_data ;;; ret true).
Proof. reflexivity. Qed.

Lemma dispatch_3 `{Pandas} (net : Upstream) (now : string) :
  dispatch net now "3" = (process_data ;;; ret true).
Proof. reflexivity. Qed.

Lemma dispatch_4 `{Pandas} (net : Upstream) (now : string) :
  dispatch net now "4" = (visualize_data now ;;; ret true).
Proof. reflexivity. Qed.

Lemma dispatch_5 `{Pandas} (net : Upstream) (now : string) :
  dispatch net now "5"
  = (report <- generate_report now ;;
     print preview_title ;;;
     match report with
     | Some text => print (preview text)
     | None => raise (TypeError "'NoneType' object is not subscriptable")
     end ;;;
     ret true).
Proof. reflexivity. Qed.

Lemma dispatch_6 `{Pandas} (net : Upstream) (now : string) :
  dispatch net now "6" = (print goodbye ;;; ret false).
Proof. reflexivity. Qed.

(** Choosing 6 ends the program normally whatever was typed after it:
    the menu, the prompt and the goodbye line are printed, and the session
    and the data directory are as they were. *)
Lemma choice_6_exits `{Pandas} (net : nat -> Upstream) (clock : nat -> string)
    (i : nat) (rest : list string) (w : World) :
  menu_loop net clock i ("6" :: rest) w
  = (Exited, {| self := self w; disk := disk w;
                stdout := (stdout w ++ menu ++ [prompt; goodbye])%list |}).
Proof.
  rewrite menu_loop_cons, prompted_eq, dispatch_6. mrun.
  do 2 f_equal. by rewrite <- app_assoc.
Qed.

(** X16: a line that is none of 1 to 6 costs one pass: the loop prints the
    invalid-choice line and goes on with the next line, the session and the
    data directory untouched. *)
Theorem invalid_choice_is_skipped `{Pandas} (net : nat -> Upstream)
    (clock : nat -> string) (i : nat) (choice : string) (rest : list string)
    (w : World) :
  choice ∉ ["1"; "2"; "3"; "4"; "5"; "6"] →
  menu_loop net clock i (choice :: rest) w
  = menu_loop net clock (S i) rest
      {| self := self w; disk := disk w;
         stdout := (stdout w ++ menu ++ [prompt; invalid_choice])%list |}.
Proof.
  intros Hnot. rewrite menu_loop_cons, prompted_eq. unfold dispatch.
  rewrite !bool_decide_eq_false_2
    by (intros ->; apply Hnot; repeat constructor).
  mrun. do 2 f_equal. by rewrite <- app_assoc.
Qed.

Lemma invalid_choice_is_skipped_witness :
  menu_loop (H:=merge_pandas) (fun _ => all_up) (fun _ => noon) 0 ["7"; "6"] fresh
  = menu_loop (H:=merge_pandas) (fun _ => all_up) (fun _ => noon) 1 ["6"]
      {| self := self fresh; disk := disk fresh;
         stdout := (stdout fresh ++ menu ++ [prompt; invalid_choice])%list |}.
Proof.
  apply (invalid_choice_is_skipped (H:=merge_pandas) (fun _ => all_up) (fun _ => noon)
           0 "7" ["6"] fresh).
  repeat (apply not_elem_of_cons; split; [done|]). apply not_elem_of_nil.
Defined.

(** X17: asking for the report first crashes the program: the new dashboard
    holds no summary, [generate_report] prints its guard line and returns
    [None], and slicing that for the preview raises [TypeError], which
    nothing catches.  The data directory is untouched. *)
Theorem report_as_first_choice_crashes `{Pandas} (net : nat -> Upstream)
    (clock : nat -> string) (rest : list string) (w : World) :
  ∃ w', main net clock ("5" :: rest) w
        = (Crashed (TypeError "'NoneType' object is not subscriptable"), w')
    ∧ disk w' = disk w
    ∧ stdout w' = (stdout w ++ banner ++ menu
                   ++ [prompt; no_data_message; preview_title])%list.
Proof.
  destruct w as [s dk so]. unfold main. cbn [print_lines banner]. mrun.
  rewrite menu_loop_cons, prompted_eq, dispatch_5.
  unfold generate_report, new_dashboard. mrun. cbn [init global_data].
  mrun. eexists. split; [reflexivity|]. split; [reflexivity|].
  cbn. by rewrite <- !app_assoc.
Qed.

(** X18: a failed fetch ends the program: when the upstream fails on any of
    the three requests during a pass that chose 1, the loop stops with that
    connection or decode error, whatever was typed after. *)
Theorem failed_fetch_crashes `{Pandas} (net : nat -> Upstream) (clock : nat -> string)
    (i : nat) (rest : list string) (w : World) :
  any_failed (net i) = true →
  ∃ e w', menu_loop net clock i ("1" :: rest) w = (Crashed e, w')
          ∧ (e = ConnectionError ∨ e = JSONDecodeError).
Proof.
  intros Hfail. rewrite menu_loop_cons, prompted_eq, dispatch_1.
  destruct (net i) as [[| |g] [| |c] [| |h]]; try discriminate;
    unfold fetch_data; mrun; eauto.
Qed.

Lemma failed_fetch_crashes_witness :
  ∃ e w', menu_loop (H:=merge_pandas) (fun _ => countries_down) (fun _ => noon) 0
            ["1"; "6"] fresh = (Crashed e, w')
          ∧ (e = ConnectionError ∨ e = JSONDecodeError).
Proof.
  apply (failed_fetch_crashes (H:=merge_pandas) (fun _ => countries_down) (fun _ => noon)
           0 ["6"] fresh).
  reflexivity.
Defined.

(** X19: missing snapshots do not end the program: when a pass chose 2 and
    a snapshot file is missing (the files before it readable), the loop
    prints the not-found line and goes on with the next line; the data
    directory and the derived tables are as they were. *)
Theorem load_without_files_goes_on `{Pandas} (net : nat -> Upstream)
    (clock : nat -> string) (i : nat) (rest : list string) (w : World) :
  first_gap_is_missing (disk w) = true →
  ∃ w', menu_loop net clock i ("2" :: rest) w = menu_loop net clock (S i) rest w'
        ∧ disk w' = disk w
        ∧ derived (self w') = derived (self w)
        ∧ stdout w' = (stdout w ++ menu ++ [prompt; not_found_message])%list.
Proof.
  intros Hgap. rewrite menu_loop_cons, prompted_eq, dispatch_2.
  destruct w as [s [[| |g] [| |c] [| |h] out] so]; try discriminate;
    unfold load_data; mrun; (eexists; split; [reflexivity|]); cbn;
    rewrite <- app_assoc; done.
Qed.

Lemma load_without_files_goes_on_witness :
  ∃ w', menu_loop (H:=merge_pandas) (fun _ => all_up) (fun _ => noon) 0 ["2"; "6"] fresh
        = menu_loop (H:=merge_pandas) (fun _ => all_up) (fun _ => noon) 1 ["6"] w'
        ∧ disk w' = disk fresh
        ∧ derived (self w') = derived (self fresh)
        ∧ stdout w' = (stdout fresh ++ menu ++ [prompt; not_found_message])%list.
Proof.
  apply (load_without_files_goes_on (H:=merge_pandas) (fun _ => all_up) (fun _ => noon)
           0 ["6"] fresh).
  reflexivity.
Defined.

Lemma substring_prefix (n : nat) (s : string) :
  ∃ tail, s = substring 0 n s +:+ tail
          ∧ String.length (substring 0 n s) = Nat.min n (String.length s).
Proof.
  revert s. induction n as [|n IH]; intros s.
  - exists s. by destruct s.
  - destruct s as [|x s]; [by exists ""|].
    destruct (IH s) as (tail & Heq & Hlen). exists tail.
    change (String x s = String x (substring 0 n s +:+ tail)
            ∧ S (String.length (substring 0 n s)) = S (Nat.min n (String.length s))).
    split; [by f_equal | by rewrite Hlen].
Qed.

(** X20: a pass that chose 5 and got a report prints the preview title and
    the preview, and goes on with the next line.  The preview is the start
    of the report, its first 500 characters or all of it when it is
    shorter, followed by three dots and a newline. *)
Theorem report_choice_prints_preview `{Pandas} (net : nat -> Upstream)
    (clock : nat -> string) (i : nat) (rest : list string) (w w' : World)
    (text : string) :
  generate_report (clock i) (prompted w) = (inr (Some text), w') →
  menu_loop net clock i ("5" :: rest) w
  = menu_loop net clock (S i) rest
      {| self := self w'; disk := disk w';
         stdout := (stdout w' ++ [preview_title; preview text])%list |}
  ∧ ∃ tail, text = substring 0 500 text +:+ tail
            ∧ preview text = substring 0 500 text +:+ "..." +:+ NL
            ∧ String.length (substring 0 500 text) = Nat.min 500 (String.length text).
Proof.
  intros Hrep. split.
  - rewrite menu_loop_cons, dispatch_5.
    rewrite (bind_inr _ _ _ _ _ Hrep). destruct w' as [s' dk' so']. mrun.
    do 2 f_equal. by rewrite <- app_assoc.
  - destruct (substring_prefix 500 text) as (tail & Heq & Hlen).
    exists tail. done.
Qed.

Lemma report_choice_prints_preview_witness :
  ∃ w' text,
    generate_report noon (prompted processed) = (inr (Some text), w')
    ∧ menu_loop (H:=merge_pandas) (fun _ => all_up) (fun _ => noon) 0 ["5"; "6"] processed
      = menu_loop (H:=merge_pandas) (fun _ => all_up) (fun _ => noon) 1 ["6"]
          {| self := self w'; disk := disk w';
             stdout := (stdout w' ++ [preview_title; preview text])%list |}
    ∧ ∃ tail, text = substring 0 500 text +:+ tail
              ∧ preview text = substring 0 500 text +:+ "..." +:+ NL
              ∧ String.length (substring 0 500 text)
                = Nat.min 500 (String.length text).
Proof.
  assert (Hrep : ∃ w' text,
             generate_report noon (prompted processed) = (inr (Some text), w'))
    by (vm_compute; eexists _, _; reflexivity).
  destruct Hrep as (w' & text & Hrep). exists w', text. split; [exact Hrep|].
  apply (report_choice_prints_preview (H:=merge_pandas) (fun _ => all_up) (fun _ => noon)
           0 ["6"] processed w' text Hrep).
Defined.

(** X21: asking for the charts first does not crash the program: the new
    dashboard holds no data, [visualize_data] prints its guard line, and the
    loop goes on with the next line, nothing written. *)
Theorem charts_as_first_choice_goes_on `{Pandas} (net : nat -> Upstream)
    (clock : nat -> string) (rest : list string) (w : World) :
  main net clock ("4" :: rest) w
  = menu_loop net clock 1 rest
      {| self := init; disk := disk w;
         stdout := (stdout w ++ banner ++ menu ++ [prompt; no_data_message])%list |}.
Proof.
  destruct w as [s dk so]. unfold main. cbn [print_lines banner]. mrun.
  rewrite menu_loop_cons, prompted_eq, dispatch_4.
  unfold visualize_data, new_dashboard. mrun. cbn [init countries_data].
  mrun. do 2 f_equal. cbn. by rewrite <- !app_assoc.
Qed.

(** The report never touches the snapshots. *)
Lemma generate_report_keeps_snapshots (w : World) (now : string) :
  global_summary_json (disk (generate_report now w).2) = global_summary_json (disk w)
  ∧ countries_data_json (disk (generate_report now w).2) = countries_data_json (disk w)
  ∧ historical_data_json (disk (generate_report now w).2) = historical_data_json (disk w).
Proof.
  destruct w as [s dk so].
  unfold generate_report, getitem, get_comma, percent, truediv. mrun.
  destruct (global_data s) as [g|]; mrun; [|done].
  repeat match goal with
         | |- context [g !! ?k] => destruct (g !! k); mrun; [|done]
         end.
  repeat match goal with
         | |- context [bool_decide ?P] => destruct (bool_decide P); mrun; [done|]
         end.
  destruct (top_countries s) as [top|]; mrun; [|done].
  pose proof (report_rows_pure top (rows top) {| self := s; disk := dk; stdout := so |})
    as Hpure.
  destruct (mapM (report_row top) (rows top) {| self := s; disk := dk; stdout := so |})
    as [[e|lines] w1]; cbn in Hpure; subst w1; mrun; done.
Qed.

(** X22: the usual session works end to end: with the upstream answering a
    complete summary (cases not zero), a non-empty country list without a
    zero case count and a history with both series, typing 1, 3, 5, 6 ends
    the program normally; the session holds the fetched payloads and the
    top table, and the data directory holds the three snapshots and the
    report. *)
Theorem fetch_process_report_exit `{Pandas} (net : nat -> Upstream)
    (clock : nat -> string) (w : World)
    (g : gmap string Z) (c : list CountryRecord) (h : gmap string DateCounts)
    (ch dh : DateCounts) (cg dg rg ag cr tc td : Z) :
  global_endpoint (net 0%nat) = Payload g → countries_endpoint (net 0%nat) = Payload c →
  historical_endpoint (net 0%nat) = Payload h →
  g !! "cases" = Some cg → g !! "deaths" = Some dg → g !! "recovered" = Some rg →
  g !! "active" = Some ag → g !! "critical" = Some cr →
  g !! "todayCases" = Some tc → g !! "todayDeaths" = Some td → cg ≠ 0 →
  c ≠ [] → Forall (fun row => cases row ≠ 0) c →
  h !! "cases" = Some ch → h !! "deaths" = Some dh →
  ∃ w' report,
    main net clock ["1"; "3"; "5"; "6"] w = (Exited, w')
    ∧ payloads (self w') = (Some g, Some c, Some h)
    ∧ top_countries (self w') = Some (top_of c)
    ∧ global_summary_json (disk w') = Stored g
    ∧ countries_data_json (disk w') = Stored c
    ∧ historical_data_json (disk w') = Stored h
    ∧ outputs (disk w') !! "covid_report.txt" = Some (TextFile report)
    ∧ last (stdout w') = Some goodbye.
Proof.
  intros Hng Hnc Hnh Hcg Hdg Hrg Hag Hcr Htc Htd Hnz Hne Hall Hch Hdh.
  unfold main.
  set (w0 := ((print_lines banner;;; new_dashboard) w).2).
  (* 1 *)
  rewrite menu_loop_cons, dispatch_1.
  destruct (fetch_data_run (net 0%nat) (prompted w0) g c h Hng Hnc Hnh)
    as (w1 & Hfetch & Hp1 & _ & Hsg & Hsc & Hsh & _).
  rewrite (bind_inr _ _ _ _ _ Hfetch). unfold ret at 1.
  injection Hp1 as Hg1 Hc1 Hh1.
  (* 3 *)
  rewrite menu_loop_cons, dispatch_3.
  assert (Hs1 : self (prompted w1) = self w1) by (by rewrite prompted_eq).
  assert (Hd1 : disk (prompted w1) = disk w1) by (by rewrite prompted_eq).
  destruct (process_data_run (prompted w1) c h ch dh)
    as (w2 & Hproc & _ & Hg2 & Hc2 & Htop2 & _); rewrite ?Hs1; try done.
  destruct (process_data_run_files (prompted w1) c h ch dh)
    as (w2' & Hproc' & Hp2 & _ & Hsg2 & Hsc2 & Hsh2 & _); rewrite ?Hs1; try done.
  rewrite Hproc in Hproc'. injection Hproc' as <-.
  rewrite Hs1 in Hg2, Hp2. rewrite Hd1 in Hsg2, Hsc2, Hsh2.
  rewrite (bind_inr _ _ _ _ _ Hproc). unfold ret at 1.
  (* 5 *)
  rewrite menu_loop_cons, dispatch_5.
  assert (Hs2 : self (prompted w2) = self w2) by (by rewrite prompted_eq).
  assert (Hd2 : disk (prompted w2) = disk w2) by (by rewrite prompted_eq).
  destruct (generate_report_run (prompted w2) g (top_of c) (clock 2%nat)
              cg dg rg ag cr tc td)
    as (lines & report & w3 & Hrep & _ & _ & Hself3 & Hout3); rewrite ?Hs2; try done.
  { by rewrite Hg2. }
  { by apply top_of_base_columns. }
  { intros _. by apply top_of_rows_Forall. }
  rewrite (bind_inr _ _ _ _ _ Hrep).
  assert (Hd3 : global_summary_json (disk w3) = Stored g
                ∧ countries_data_json (disk w3) = Stored c
                ∧ historical_data_json (disk w3) = Stored h).
  { pose proof (generate_report_keeps_snapshots (prompted w2) (clock 2%nat)) as Hkeep.
    rewrite Hrep in Hkeep. cbn [snd] in Hkeep. destruct Hkeep as (-> & -> & ->).
    by rewrite Hd2, Hsg2, Hsc2, Hsh2. }
  destruct Hd3 as (Hg3 & Hc3 & Hh3).
  destruct w3 as [s3 dk3 so3]. mrun. cbn [self disk] in *.
  (* 6 *)
  rewrite menu_loop_cons, prompted_eq, dispatch_6. mrun.
  eexists _, report. split; [reflexivity|]. cbn [self disk stdout].
  subst s3. rewrite Hs2.
  unfold payloads in *. rewrite Hp2.
  repeat split; try done.
  - by rewrite Hg1, Hc1, Hh1.
  - by rewrite last_snoc.
Qed.

Lemma fetch_process_report_exit_witness :
  ∃ w' report,
    main (H:=merge_pandas) (fun _ => all_up) (fun _ => noon) ["1"; "3"; "5"; "6"] fresh
    = (Exited, w')
    ∧ payloads (self w') = (Some sample_summary, Some three_countries, Some cases_and_deaths)
    ∧ top_countries (self w') = Some (top_of (H:=merge_pandas) three_countries)
    ∧ global_summary_json (disk w') = Stored sample_summary
    ∧ countries_data_json (disk w') = Stored three_countries
    ∧ historical_data_json (disk w') = Stored cases_and_deaths
    ∧ outputs (disk w') !! "covid_report.txt" = Some (TextFile report)
    ∧ last (stdout w') = Some goodbye.
Proof.
  apply (fetch_process_report_exit (H:=merge_pandas) (fun _ => all_up) (fun _ => noon)
           fresh sample_summary three_countries cases_and_deaths two_days two_days_deaths
           1000 50 900 50 3 7 1);
    try solve [reflexivity | discriminate].
  repeat constructor; vm_compute; discriminate.
Defined.
